(** * Consent tracking (clientapi/routing/consent_tracking.go)

    A shallow embedding of the signed consent link, the /consent request
    handler and the server-notice dispatcher, together with the parts of the
    Go standard library they rest on (crypto/sha256, crypto/hmac,
    encoding/hex, fmt.Sprintf with the verbs the code uses).

    Go strings are byte sequences: they are modelled by [string] (a list of
    8-bit characters); a [[]byte] is a [list byte]. *)

From Stdlib Require Import ZArith List Lia.
From Stdlib Require Import Strings.Byte Strings.Ascii.
From stdpp Require Import gmap strings list.

Local Open Scope Z_scope.

(** ** Bytes *)

Module Bytes.

Definition to_Z (b : byte) : Z := Z.of_N (Byte.to_N b).

(** [byte(z)]: conversion of an integer to a byte keeps the low 8 bits. *)
Definition of_Z (z : Z) : byte :=
  match Byte.of_N (Z.to_N (z mod 256)) with
  | Some b => b
  | None => x00
  end.

(** [[]byte(s)] and [string(b)] *)
Definition of_string (s : string) : list byte := String.list_byte_of_string s.
Definition to_string (b : list byte) : string := String.string_of_list_byte b.

End Bytes.

(** ** crypto/sha256 *)

Module SHA256.

(** uint32 arithmetic wraps around at 2^32. *)
Definition u32 (x : Z) : Z := x mod 2 ^ 32.

Definition add32 (x y : Z) : Z := u32 (x + y).

(** [bits.RotateLeft32(x, -n)] *)
Definition rotr (x n : Z) : Z :=
  Z.lor (Z.shiftr x n) (u32 (Z.shiftl x (32 - n))).

(** [^x] on uint32 *)
Definition not32 (x : Z) : Z := u32 (Z.lnot x).

(** The round constants and the initial state are given by FIPS 180-4 as the
    first 32 bits of the fractional parts of the cube roots (square roots)
    of the first 64 (first 8) primes; [_K] and [init0..init7] of the Go
    package are these numbers written out. *)
Definition primes : list Z :=
  [2; 3; 5; 7; 11; 13; 17; 19; 23; 29; 31; 37; 41; 43; 47; 53;
   59; 61; 67; 71; 73; 79; 83; 89; 97; 101; 103; 107; 109; 113; 127; 131;
   137; 139; 149; 151; 157; 163; 167; 173; 179; 181; 191; 193; 197; 199; 211; 223;
   227; 229; 233; 239; 241; 251; 257; 263; 269; 271; 277; 281; 283; 293; 307; 311].

(** Integer cube root, one bit at a time from bit [i] down. *)
Fixpoint icbrt_from (i : nat) (n r : Z) : Z :=
  let r' := r + 2 ^ Z.of_nat i in
  let r := if r' * r' * r' <=? n then r' else r in
  match i with
  | O => r
  | S i' => icbrt_from i' n r
  end.

Definition icbrt (n : Z) : Z := icbrt_from 40 n 0.

Definition _K : list Z :=
  Eval vm_compute in map (fun p => u32 (icbrt (p * 2 ^ 96))) primes.

Definition init : list Z :=
  Eval vm_compute in map (fun p => u32 (Z.sqrt (p * 2 ^ 64))) (firstn 8 primes).

(** [l[i]], zero out of range (the code never indexes out of range). *)
Definition word (l : list Z) (i : nat) : Z := nth i l 0.

(** The digest state [dig.h]. *)
Definition state : Type := Z * Z * Z * Z * Z * Z * Z * Z.

Definition init_state : state :=
  (word init 0, word init 1, word init 2, word init 3,
   word init 4, word init 5, word init 6, word init 7).

(** [w[i] = uint32(p[j])<<24 | uint32(p[j+1])<<16 | uint32(p[j+2])<<8 | uint32(p[j+3])] *)
Fixpoint be_words (p : list Z) : list Z :=
  match p with
  | b0 :: b1 :: b2 :: b3 :: rest =>
      Z.lor (Z.lor (Z.lor (Z.shiftl b0 24) (Z.shiftl b1 16)) (Z.shiftl b2 8)) b3
        :: be_words rest
  | _ => []
  end.

(** The message schedule; [recent] holds the words computed so far, the
    latest first, so that [w[i-k]] is at index [k-1]. *)
Fixpoint schedule (n : nat) (recent : list Z) : list Z :=
  match n with
  | O => recent
  | S n' =>
      let v1 := word recent 1 in
      let t1 := Z.lxor (Z.lxor (rotr v1 17) (rotr v1 19)) (Z.shiftr v1 10) in
      let v2 := word recent 14 in
      let t2 := Z.lxor (Z.lxor (rotr v2 7) (rotr v2 18)) (Z.shiftr v2 3) in
      let wi := add32 (add32 (add32 t1 (word recent 6)) t2) (word recent 15) in
      schedule n' (wi :: recent)
  end.

Definition round (s : state) (kw : Z * Z) : state :=
  let '(a, b, c, d, e, f, g, h) := s in
  let '(k, w) := kw in
  let t1 :=
    add32 (add32 (add32 (add32 h
      (Z.lxor (Z.lxor (rotr e 6) (rotr e 11)) (rotr e 25)))
      (Z.lxor (Z.land e f) (Z.land (not32 e) g))) k) w in
  let t2 :=
    add32 (Z.lxor (Z.lxor (rotr a 2) (rotr a 13)) (rotr a 22))
          (Z.lxor (Z.lxor (Z.land a b) (Z.land a c)) (Z.land b c)) in
  (add32 t1 t2, a, b, c, add32 d t1, e, f, g).

(** One 64-byte chunk of [blockGeneric]. *)
Definition block (s : state) (chunk : list Z) : state :=
  let w := rev (schedule 48 (rev (be_words chunk))) in
  let '(a, b, c, d, e, f, g, h) := fold_left round (combine _K w) s in
  let '(h0, h1, h2, h3, h4, h5, h6, h7) := s in
  (add32 h0 a, add32 h1 b, add32 h2 c, add32 h3 d,
   add32 h4 e, add32 h5 f, add32 h6 g, add32 h7 h).

(** [for len(p) >= chunk { ...; p = p[chunk:] }] *)
Fixpoint blocks (n : nat) (s : state) (p : list Z) : state :=
  match n with
  | O => s
  | S n' => blocks n' (block s (firstn 64 p)) (skipn 64 p)
  end.

(** Big-endian bytes of the low [8 * n] bits of [x]. *)
Fixpoint be_bytes (n : nat) (x : Z) : list Z :=
  match n with
  | O => []
  | S n' => (Z.shiftr x (8 * Z.of_nat n')) mod 256 :: be_bytes n' x
  end.

(** [checkSum]: 0x80, zeros up to 56 mod 64, then the bit length on 8 bytes. *)
Definition pad (msg : list Z) : list Z :=
  let len := Z.of_nat (length msg) in
  let zeros := Z.to_nat ((55 - len) mod 64) in
  msg ++ [128] ++ repeat 0 zeros ++ be_bytes 8 (len * 8 mod 2 ^ 64).

Definition digest (s : state) : list byte :=
  let '(h0, h1, h2, h3, h4, h5, h6, h7) := s in
  map Bytes.of_Z
    (be_bytes 4 h0 ++ be_bytes 4 h1 ++ be_bytes 4 h2 ++ be_bytes 4 h3 ++
     be_bytes 4 h4 ++ be_bytes 4 h5 ++ be_bytes 4 h6 ++ be_bytes 4 h7).

(** [sha256.Sum256] *)
Definition Sum256 (msg : list byte) : list byte :=
  let p := pad (map Bytes.to_Z msg) in
  digest (blocks (length p / 64) init_state p).

Definition BlockSize : nat := 64.
Definition Size : nat := 32.

End SHA256.

(** ** crypto/hmac *)

Module HMAC.

Definition xor_with (c : Z) (b : byte) : byte :=
  Bytes.of_Z (Z.lxor (Bytes.to_Z b) c).

(** [hmac.New(sha256.New, key)], [mac.Write(msg)] and [mac.Sum(nil)]: a key
    longer than the block size is hashed first, then zero-padded to the
    block size. [hash.Hash.Write] never returns an error. *)
Definition Sum (key msg : list byte) : list byte :=
  let key :=
    if (SHA256.BlockSize <? length key)%nat then SHA256.Sum256 key else key in
  let key := key ++ repeat x00 (SHA256.BlockSize - length key) in
  let ipad := map (xor_with 54) key in
  let opad := map (xor_with 92) key in
  SHA256.Sum256 (opad ++ SHA256.Sum256 (ipad ++ msg)).

(** The loop of [subtle.ConstantTimeCompare]: [v |= x[i] ^ y[i]]. *)
Fixpoint or_xor (v : Z) (x y : list byte) : Z :=
  match x, y with
  | a :: x', b :: y' =>
      or_xor (Z.lor v (Z.lxor (Bytes.to_Z a) (Bytes.to_Z b))) x' y'
  | _, _ => v
  end.

(** [subtle.ConstantTimeCompare]: 0 when the lengths differ, else 1 exactly
    when no byte differs. *)
Definition ConstantTimeCompare (x y : list byte) : Z :=
  if negb (length x =? length y)%nat then 0
  else if or_xor 0 x y =? 0 then 1 else 0.

(** [hmac.Equal] *)
Definition Equal (mac1 mac2 : list byte) : bool :=
  ConstantTimeCompare mac1 mac2 =? 1.

End HMAC.

(** ** Errors

    A Go [error] value; [None] in an [option error] is [nil]. *)

Inductive error : Type :=
| InvalidByteError (b : byte)   (* encoding/hex: invalid byte *)
| ErrLength                     (* encoding/hex: odd length hex string *)
| errorString (msg : string).   (* errors.New / fmt.Errorf *)

(** [err != nil] *)
Definition notNil (err : option error) : bool :=
  match err with
  | Some _ => true
  | None => false
  end.

(** ** encoding/hex *)

Module Hex.

(** [fromHexChar]: both cases of the letters are accepted. *)
Definition fromHexChar (c : byte) : option Z :=
  let n := Bytes.to_Z c in
  if (48 <=? n) && (n <=? 57) then Some (n - 48)
  else if (97 <=? n) && (n <=? 102) then Some (n - 97 + 10)
  else if (65 <=? n) && (n <=? 70) then Some (n - 65 + 10)
  else None.

(** [hex.Decode]: the bytes decoded before the first error are returned
    with it; an invalid character is reported before an odd length. *)
Fixpoint Decode (src : list byte) : list byte * option error :=
  match src with
  | [] => ([], None)
  | [p] =>
      match fromHexChar p with
      | None => ([], Some (InvalidByteError p))
      | Some _ => ([], Some ErrLength)
      end
  | p :: q :: rest =>
      match fromHexChar p with
      | None => ([], Some (InvalidByteError p))
      | Some a =>
          match fromHexChar q with
          | None => ([], Some (InvalidByteError q))
          | Some b =>
              let '(dst, err) := Decode rest in
              (Bytes.of_Z (Z.lor (Z.shiftl a 4) b) :: dst, err)
          end
      end
  end.

Definition DecodeString (s : string) : list byte * option error :=
  Decode (Bytes.of_string s).

(** [hextable = "0123456789abcdef"] *)
Definition hextable (n : Z) : byte :=
  Bytes.of_Z (if n <? 10 then 48 + n else 97 + (n - 10)).

(** [hex.Encode]: [dst[j] = hextable[v>>4]; dst[j+1] = hextable[v&0x0f]] *)
Fixpoint Encode (src : list byte) : list byte :=
  match src with
  | [] => []
  | v :: rest =>
      hextable (Z.shiftr (Bytes.to_Z v) 4)
        :: hextable (Z.land (Bytes.to_Z v) 15) :: Encode rest
  end.

Definition EncodeToString (src : list byte) : string :=
  Bytes.to_string (Encode src).

End Hex.

(** ** Configuration (setup/config)

    Modelled from the spec: the configuration types are declared outside the
    file at hand; the records carry the fields the code reads (secret, base
    URL and current policy version of the consent options, the server name
    and the local part of the notice sender). The two template sets of the
    consent options are collaborators, see [Collaborators] below. *)

Module config.

Record ServerNoticeContentT : Type := { MsgType : string }.

Record UserConsentOptionsT : Type := {
  Version : string;
  FormSecret : string;
  BaseURL : string;
  ServerNoticeContent : ServerNoticeContentT
}.

Record ServerNoticesT : Type := { LocalPart : string }.

Record Global : Type := {
  ServerName : string;
  UserConsentOptions : UserConsentOptionsT;
  ServerNotices : ServerNoticesT
}.

Record ClientAPI : Type := { Matrix : Global }.

(** The same configuration with another current policy version. *)
Definition withVersion (v : string) (cfg : ClientAPI) : ClientAPI :=
  let g := Matrix cfg in
  let o := UserConsentOptions g in
  {| Matrix :=
      {| ServerName := ServerName g;
         UserConsentOptions :=
           {| Version := v; FormSecret := FormSecret o; BaseURL := BaseURL o;
              ServerNoticeContent := ServerNoticeContent o |};
         ServerNotices := ServerNotices g |} |}.

End config.

(** ** The signed link *)

(** [userMAC] of [buildConsentURI]: the HMAC-SHA256 of the user ID under the
    form secret, as [mac.Sum(nil)] returns it. *)
Definition userMAC (cfgClient : config.ClientAPI) (userID : string) : list byte :=
  let consentOpts := config.UserConsentOptions (config.Matrix cfgClient) in
  HMAC.Sum (Bytes.of_string (config.FormSecret consentOpts)) (Bytes.of_string userID).

(** [fmt.Sprintf("%s/_matrix/client/consent?u=%s&h=%s&v=%s", ...)]: the verb
    [%s] prints a string as it is and a byte slice as its uninterpreted
    bytes. [mac.Write] never fails, so the error is always [nil]. *)
Definition buildConsentURI (cfgClient : config.ClientAPI) (userID : string)
  : string * option error :=
  let consentOpts := config.UserConsentOptions (config.Matrix cfgClient) in
  let userMAC := userMAC cfgClient userID in
  (config.BaseURL (config.UserConsentOptions (config.Matrix cfgClient))
     +:+ "/_matrix/client/consent?u=" +:+ userID
     +:+ "&h=" +:+ Bytes.to_string userMAC
     +:+ "&v=" +:+ config.Version consentOpts,
   None).

Definition validHMAC (username userHMAC secret : string) : bool * option error :=
  let expectedMAC := HMAC.Sum (Bytes.of_string secret) (Bytes.of_string username) in
  let '(decoded, err) := Hex.DecodeString userHMAC in
  match err with
  | Some e => (false, Some e)
  | None => (HMAC.Equal decoded expectedMAC, None)
  end.

(** The link format of the specification, in its words: the [h] parameter is
    the hex encoding of the HMAC-SHA256 of the identity under the secret. *)
Definition specLink (baseURL identity secret version : string) : string :=
  baseURL +:+ "/_matrix/client/consent?u=" +:+ identity
    +:+ "&h=" +:+ Hex.EncodeToString
                    (HMAC.Sum (Bytes.of_string secret) (Bytes.of_string identity))
    +:+ "&v=" +:+ version.

(** ** gomatrixserverlib.SplitID

    The library function that parses a Matrix ID. IDs have the format
    SIGIL LOCALPART ":" DOMAIN; an ID that is empty or does not start with
    the sigil is an error, as is one without ":"; the ID is split on the
    first ":" since the domain can contain it, and the local part is what
    follows the sigil. The texts of the two errors are shortened here. *)

(** [strings.SplitN(s, ":", 2)] when the separator occurs. *)
Fixpoint cut_colon (s : string) : option (string * string) :=
  match s with
  | EmptyString => None
  | String c rest =>
      if Ascii.eqb c ":"%char then Some (EmptyString, rest)
      else match cut_colon rest with
           | Some (l, r) => Some (String c l, r)
           | None => None
           end
  end.

Definition SplitID (sigil : Ascii.ascii) (id : string)
  : string * string * option error :=
  match id with
  | EmptyString => ("", "", Some (errorString "invalid ID: missing sigil"))
  | String c _ =>
      if negb (Ascii.eqb c sigil)
      then ("", "", Some (errorString "invalid ID: missing sigil"))
      else match cut_colon id with
           | None => ("", "", Some (errorString "invalid ID: missing ':'"))
           | Some (String _ local, domain) => (local, domain, None)
           | Some (EmptyString, domain) => ("", domain, None)
           end
  end.

(** ** Requests, responses and collaborator messages *)

(** [*http.Request]: the method and [req.FormValue]. *)
Record Request : Type := {
  Method : string;
  FormValue : string -> string
}.

(** [util.JSONResponse] *)
Record JSONResponse : Type := { Code : Z }.

Definition StatusOK : Z := 200.
Definition StatusInternalServerError : Z := 500.

(** Modelled from the spec: [jsonerror.InternalServerError] is declared
    outside the file at hand; an internal failure is answered with status
    500. *)
Definition InternalServerError : JSONResponse :=
  {| Code := StatusInternalServerError |}.

(** The data used to populate the /consent request *)
Record constentTemplateData : Type := {
  User : string;
  Version : string;
  UserHMAC : string;
  HasConsented : bool;
  PublicVersion : bool
}.

Definition setPublicVersion (b : bool) (d : constentTemplateData) :=
  {| User := User d; Version := Version d; UserHMAC := UserHMAC d;
     HasConsented := HasConsented d; PublicVersion := b |}.

Definition setHasConsented (b : bool) (d : constentTemplateData) :=
  {| User := User d; Version := Version d; UserHMAC := UserHMAC d;
     HasConsented := b; PublicVersion := PublicVersion d |}.

(** Modelled from the spec: the request and response messages of the user API
    are declared outside the file at hand; the records carry the fields the
    code sets and reads. A field the code leaves out of a literal has Go's
    zero value. *)
Module userapi.

Module QueryPolicyVersionRequest.
Record t : Type := { LocalPart : string }.
End QueryPolicyVersionRequest.

Module QueryPolicyVersionResponse.
Record t : Type := { PolicyVersion : string }.
End QueryPolicyVersionResponse.

Module UpdatePolicyVersionRequest.
Record t : Type := {
  PolicyVersion : string;
  LocalPart : string;
  ServerNoticeUpdate : bool
}.
End UpdatePolicyVersionRequest.

Module QueryOutdatedPolicyRequest.
Record t : Type := { PolicyVersion : string }.
End QueryOutdatedPolicyRequest.

Module QueryOutdatedPolicyResponse.
Record t : Type := { OutdatedUsers : list string }.
End QueryOutdatedPolicyResponse.

End userapi.

Module sendServerNoticeRequest.
Record content : Type := { MsgType : string; Body : string }.
Record t : Type := { UserID : string; Content : content }.
End sendServerNoticeRequest.

(** ** Collaborators

    Everything the file reaches through an interface or a sibling file: the
    user API (the consent state store), the HTML templates executed into the
    response writer, the response writer itself, the text templates of the
    notice and [sendServerNotice]. Each acts on a world [W] that the code
    cannot inspect, and reports a Go error or [nil]. *)

Class Collaborators (W : Type) : Type := {
  QueryPolicyVersion :
    userapi.QueryPolicyVersionRequest.t -> W ->
    userapi.QueryPolicyVersionResponse.t * option error * W;
  PerformUpdatePolicyVersion :
    userapi.UpdatePolicyVersionRequest.t -> W -> option error * W;
  QueryOutdatedPolicy :
    userapi.QueryOutdatedPolicyRequest.t -> W ->
    userapi.QueryOutdatedPolicyResponse.t * option error * W;
  Templates_ExecuteTemplate :
    string -> constentTemplateData -> W -> option error * W;
  writer_Write : string -> W -> option error * W;
  TextTemplates_ExecuteTemplate :
    string -> gmap string string -> W -> string * option error * W;
  sendServerNotice : sendServerNoticeRequest.t -> W -> option error * W
}.

(** What a run does, in order: the collaborator calls with their results, the
    calls of [validHMAC] and the log lines. *)
Inductive Event : Type :=
| CallQueryPolicyVersion
    (req : userapi.QueryPolicyVersionRequest.t)
    (res : userapi.QueryPolicyVersionResponse.t) (err : option error)
| CallPerformUpdatePolicyVersion
    (req : userapi.UpdatePolicyVersionRequest.t) (err : option error)
| CallQueryOutdatedPolicy
    (req : userapi.QueryOutdatedPolicyRequest.t)
    (res : userapi.QueryOutdatedPolicyResponse.t) (err : option error)
| CallTemplates (name : string) (data : constentTemplateData) (err : option error)
| CallWrite (body : string) (err : option error)
| CallTextTemplates
    (name : string) (data : gmap string string) (out : string) (err : option error)
| CallSendServerNotice (req : sendServerNoticeRequest.t) (err : option error)
| CallValidHMAC (username userHMAC secret : string)
| LogError (err : error) (userID : option string) (msg : string)
| LogSending (count : Z)
| LogSent (sentMessages : Z).

(** ** The monad of the handlers: world passing with a trace *)

Definition M (W A : Type) : Type := W -> A * W * list Event.

Definition ret {W A} (a : A) : M W A := fun w => (a, w, []).

Definition bind {W A B} (m : M W A) (k : A -> M W B) : M W B :=
  fun w =>
    let '(a, w1, t1) := m w in
    let '(b, w2, t2) := k a w1 in
    (b, w2, t1 ++ t2).

Definition emit {W} (e : Event) : M W unit := fun w => (tt, w, [e]).

Declare Scope go_scope.
Delimit Scope go_scope with go.
Notation "x <- m ;; k" := (bind m (fun x => k))
  (at level 100, m at next level, right associativity) : go_scope.
Notation "m ;;; k" := (bind m (fun _ => k))
  (at level 100, right associativity) : go_scope.

Definition run {W A} (m : M W A) (w : W) : A * W * list Event := m w.
Definition result {W A} (m : M W A) (w : W) : A := fst (fst (m w)).
Definition world {W A} (m : M W A) (w : W) : W := snd (fst (m w)).
Definition trace {W A} (m : M W A) (w : W) : list Event := snd (m w).

(** ** The handlers *)

Section Handlers.

Context {W : Type} `{Collaborators W}.

Local Open Scope go_scope.

(** A collaborator call, recorded with its result. *)
Definition userAPI_QueryPolicyVersion (req : userapi.QueryPolicyVersionRequest.t)
  : M W (userapi.QueryPolicyVersionResponse.t * option error) :=
  fun w =>
    let '(res, err, w') := QueryPolicyVersion req w in
    ((res, err), w', [CallQueryPolicyVersion req res err]).

Definition userAPI_PerformUpdatePolicyVersion
  (req : userapi.UpdatePolicyVersionRequest.t) : M W (option error) :=
  fun w =>
    let '(err, w') := PerformUpdatePolicyVersion req w in
    (err, w', [CallPerformUpdatePolicyVersion req err]).

Definition userAPI_QueryOutdatedPolicy (req : userapi.QueryOutdatedPolicyRequest.t)
  : M W (userapi.QueryOutdatedPolicyResponse.t * option error) :=
  fun w =>
    let '(res, err, w') := QueryOutdatedPolicy req w in
    ((res, err), w', [CallQueryOutdatedPolicy req res err]).

Definition Templates_Execute (name : string) (data : constentTemplateData)
  : M W (option error) :=
  fun w =>
    let '(err, w') := Templates_ExecuteTemplate name data w in
    (err, w', [CallTemplates name data err]).

Definition writer_WriteString (body : string) : M W (option error) :=
  fun w =>
    let '(err, w') := writer_Write body w in
    (err, w', [CallWrite body err]).

Definition TextTemplates_Execute (name : string) (data : gmap string string)
  : M W (string * option error) :=
  fun w =>
    let '(out, err, w') := TextTemplates_ExecuteTemplate name data w in
    ((out, err), w', [CallTextTemplates name data out err]).

Definition call_sendServerNotice (req : sendServerNoticeRequest.t)
  : M W (option error) :=
  fun w =>
    let '(err, w') := sendServerNotice req w in
    (err, w', [CallSendServerNotice req err]).

(** [validHMAC], with the call recorded. *)
Definition call_validHMAC (username userHMAC secret : string)
  : M W (bool * option error) :=
  emit (CallValidHMAC username userHMAC secret) ;;;
  ret (validHMAC username userHMAC secret).

(** [logrus.WithError(err).Error(msg)], with the field [userID] if any. *)
Definition logError (err : error) (userID : option string) (msg : string)
  : M W unit :=
  emit (LogError err userID msg).

(** The GET branch up to the template: either an early return or the data
    to render. *)
Definition consentGetData (req : Request) (cfg : config.ClientAPI)
  (data : constentTemplateData)
  : M W (option JSONResponse + constentTemplateData) :=
  let consentCfg := config.UserConsentOptions (config.Matrix cfg) in
  let internalError := InternalServerError in
  (* display the privacy policy without a form *)
  let data :=
    setPublicVersion
      (String.eqb (User data) "" || String.eqb (UserHMAC data) ""
       || String.eqb (Version data) "") data in
  (* let's see if the user already consented to the current version *)
  if negb (PublicVersion data) then
    let '(localPart, _, err) := SplitID "@" (User data) in
    match err with
    | Some e =>
        logError e None "unable to print consent template" ;;;
        ret (inl (Some internalError))
    | None =>
        r <- userAPI_QueryPolicyVersion
               {| userapi.QueryPolicyVersionRequest.LocalPart := localPart |} ;;
        let '(res, err) := r in
        match err with
        | Some e =>
            logError e None "unable to print consent template" ;;;
            ret (inl (Some internalError))
        | None =>
            ret (inr (setHasConsented
                        (String.eqb
                           (userapi.QueryPolicyVersionResponse.PolicyVersion res)
                           (config.Version consentCfg)) data))
        end
    end
  else ret (inr data).

Definition consentGet (req : Request) (cfg : config.ClientAPI)
  (data : constentTemplateData) : M W (option JSONResponse) :=
  let consentCfg := config.UserConsentOptions (config.Matrix cfg) in
  r <- consentGetData req cfg data ;;
  match r with
  | inl response => ret response
  | inr data =>
      err <- Templates_Execute (config.Version consentCfg +:+ ".gohtml") data ;;
      match err with
      | Some e =>
          logError e None "unable to print consent template" ;;; ret None
      | None => ret None
      end
  end.

Definition consentPost (req : Request) (cfg : config.ClientAPI)
  (data : constentTemplateData) : M W (option JSONResponse) :=
  let consentCfg := config.UserConsentOptions (config.Matrix cfg) in
  let internalError := InternalServerError in
  let '(localPart, _, err) := SplitID "@" (User data) in
  match err with
  | Some e =>
      logError e None "unable to split username" ;;; ret (Some internalError)
  | None =>
      r <- call_validHMAC (User data) (UserHMAC data) (config.FormSecret consentCfg) ;;
      let '(ok, err) := r in
      if notNil err || negb ok then
        err <- writer_WriteString "invalid HMAC provided" ;;
        match err with
        | Some _ => ret (Some internalError)
        | None => ret (Some internalError)
        end
      else
        err <- userAPI_PerformUpdatePolicyVersion
                 {| userapi.UpdatePolicyVersionRequest.PolicyVersion := Version data;
                    userapi.UpdatePolicyVersionRequest.LocalPart := localPart;
                    userapi.UpdatePolicyVersionRequest.ServerNoticeUpdate := false |} ;;
        match err with
        | Some _ =>
            err <- writer_WriteString "unable to update database" ;;
            match err with
            | Some e =>
                logError e None "unable to write to database" ;;;
                ret (Some internalError)
            | None => ret (Some internalError)
            end
        | None =>
            (* display the privacy policy without a form *)
            let data := setPublicVersion false data in
            let data := setHasConsented true data in
            err <- Templates_Execute (config.Version consentCfg +:+ ".gohtml") data ;;
            match err with
            | Some e =>
                logError e None "unable to print consent template" ;;;
                ret (Some internalError)
            | None => ret None
            end
        end
  end.

Definition consent (req : Request) (cfg : config.ClientAPI)
  : M W (option JSONResponse) :=
  (* The data used to populate the /consent request *)
  let data :=
    {| User := FormValue req "u";
       Version := FormValue req "v";
       UserHMAC := FormValue req "h";
       HasConsented := false;
       PublicVersion := false |} in
  if String.eqb (Method req) "GET" then consentGet req cfg data
  else if String.eqb (Method req) "POST" then consentPost req cfg data
  else ret (Some {| Code := StatusOK |}).

(** Go's [int] is a signed 64-bit integer; [sentMessages++] wraps around. *)
Definition int_wrap (x : Z) : Z := (x + 2 ^ 63) mod 2 ^ 64 - 2 ^ 63.

(** The body of the loop over [res.OutdatedUsers]; [data] is the map made
    before the loop and shared by all iterations, [sentMessages] the
    counter. Every [continue] ends the iteration with the current values. *)
Definition noticeUser (cfgClient : config.ClientAPI)
  (acc : gmap string string * Z) (userID : string)
  : M W (gmap string string * Z) :=
  let consentOpts := config.UserConsentOptions (config.Matrix cfgClient) in
  let '(data, sentMessages) := acc in
  if String.eqb userID (config.LocalPart (config.ServerNotices (config.Matrix cfgClient)))
  then ret (data, sentMessages)
  else
    let userID :=
      "@" +:+ userID +:+ ":" +:+ config.ServerName (config.Matrix cfgClient) in
    let '(uri, err) := buildConsentURI cfgClient userID in
    let data := <["ConsentURL" := uri]> data in
    match err with
    | Some e =>
        logError e (Some userID) "unable to construct consentURI" ;;;
        ret (data, sentMessages)
    | None =>
        r <- TextTemplates_Execute "serverNoticeTemplate" data ;;
        let '(msgBody, err) := r in
        match err with
        | Some e =>
            logError e (Some userID) "unable to execute serverNoticeTemplate" ;;;
            ret (data, sentMessages)
        | None =>
            let req :=
              {| sendServerNoticeRequest.UserID := userID;
                 sendServerNoticeRequest.Content :=
                   {| sendServerNoticeRequest.MsgType :=
                        config.MsgType (config.ServerNoticeContent consentOpts);
                      sendServerNoticeRequest.Body := msgBody |} |} in
            err <- call_sendServerNotice req ;;
            match err with
            | Some e =>
                logError e (Some userID)
                  "failed to send server notice for consent to user" ;;;
                ret (data, sentMessages)
            | None =>
                let sentMessages := int_wrap (sentMessages + 1) in
                err <- userAPI_PerformUpdatePolicyVersion
                         {| userapi.UpdatePolicyVersionRequest.PolicyVersion :=
                              config.Version consentOpts;
                            userapi.UpdatePolicyVersionRequest.LocalPart := userID;
                            userapi.UpdatePolicyVersionRequest.ServerNoticeUpdate := true |} ;;
                match err with
                | Some e =>
                    logError e (Some userID) "failed to update policy version" ;;;
                    ret (data, sentMessages)
                | None => ret (data, sentMessages)
                end
            end
        end
    end.

(** [for _, userID := range res.OutdatedUsers { ... }] *)
Fixpoint noticeUsers (cfgClient : config.ClientAPI) (users : list string)
  (acc : gmap string string * Z) : M W (gmap string string * Z) :=
  match users with
  | [] => ret acc
  | userID :: rest =>
      acc' <- noticeUser cfgClient acc userID ;;
      noticeUsers cfgClient rest acc'
  end.

Definition sendServerNoticeForConsent (cfgClient : config.ClientAPI) : M W unit :=
  r <- userAPI_QueryOutdatedPolicy
         {| userapi.QueryOutdatedPolicyRequest.PolicyVersion :=
              config.Version (config.UserConsentOptions (config.Matrix cfgClient)) |} ;;
  let '(res, err) := r in
  match err with
  | Some e =>
      logError e None "unable to fetch users with outdated consent policy" ;;;
      ret tt
  | None =>
      let OutdatedUsers := userapi.QueryOutdatedPolicyResponse.OutdatedUsers res in
      (if 0 <? Z.of_nat (length OutdatedUsers)
       then emit (LogSending (Z.of_nat (length OutdatedUsers)))
       else ret tt) ;;;
      acc <- noticeUsers cfgClient OutdatedUsers (∅, 0) ;;
      let '(_, sentMessages) := acc in
      if 0 <? sentMessages then emit (LogSent sentMessages) else ret tt
  end.

End Handlers.

(** ** A reference world

    Modelled from the spec: the consent state store, the templates and the
    notice sender live outside the file at hand. The store holds, per user
    key, the last accepted policy version and whether the last write was
    notice-triggered; a record is created on first write; the outdated users
    are those whose accepted version differs from the current one. Every
    collaborator can be made to fail, per key where it has one. *)

Module Mem.

Record World : Type := {
  store : gmap string (string * bool);
  page : list string;
  outbox : list sendServerNoticeRequest.t;
  queryFails : bool;
  listFails : bool;
  updateFails : string -> bool;
  renderFails : bool;
  writeFails : bool;
  textFails : bool;
  sendFails : string -> bool
}.

Definition setStore (s : gmap string (string * bool)) (w : World) : World :=
  {| store := s; page := page w; outbox := outbox w;
     queryFails := queryFails w; listFails := listFails w;
     updateFails := updateFails w; renderFails := renderFails w;
     writeFails := writeFails w; textFails := textFails w;
     sendFails := sendFails w |}.

Definition setPage (p : list string) (w : World) : World :=
  {| store := store w; page := p; outbox := outbox w;
     queryFails := queryFails w; listFails := listFails w;
     updateFails := updateFails w; renderFails := renderFails w;
     writeFails := writeFails w; textFails := textFails w;
     sendFails := sendFails w |}.

Definition setOutbox (o : list sendServerNoticeRequest.t) (w : World) : World :=
  {| store := store w; page := page w; outbox := o;
     queryFails := queryFails w; listFails := listFails w;
     updateFails := updateFails w; renderFails := renderFails w;
     writeFails := writeFails w; textFails := textFails w;
     sendFails := sendFails w |}.

Definition failure (what : string) : option error := Some (errorString what).

Definition acceptedVersion (w : World) (user : string) : string :=
  match store w !! user with
  | Some (v, _) => v
  | None => ""
  end.

Definition outdated (current : string) (w : World) : list string :=
  map fst (filter (fun kv => negb (String.eqb (fst (snd kv)) current))
                  (map_to_list (store w))).

#[global] Instance collaborators : Collaborators World := {
  QueryPolicyVersion req w :=
    if queryFails w
    then ({| userapi.QueryPolicyVersionResponse.PolicyVersion := "" |},
          failure "query", w)
    else ({| userapi.QueryPolicyVersionResponse.PolicyVersion :=
               acceptedVersion w (userapi.QueryPolicyVersionRequest.LocalPart req) |},
          None, w);
  PerformUpdatePolicyVersion req w :=
    let user := userapi.UpdatePolicyVersionRequest.LocalPart req in
    if updateFails w user then (failure "update", w)
    else (None,
          setStore
            (<[user := (userapi.UpdatePolicyVersionRequest.PolicyVersion req,
                        userapi.UpdatePolicyVersionRequest.ServerNoticeUpdate req)]>
               (store w)) w);
  QueryOutdatedPolicy req w :=
    if listFails w
    then ({| userapi.QueryOutdatedPolicyResponse.OutdatedUsers := [] |},
          failure "list", w)
    else ({| userapi.QueryOutdatedPolicyResponse.OutdatedUsers :=
               outdated (userapi.QueryOutdatedPolicyRequest.PolicyVersion req) w |},
          None, w);
  Templates_ExecuteTemplate name data w :=
    if renderFails w then (failure "render", w)
    else (None, setPage (page w ++ [name]) w);
  writer_Write body w :=
    if writeFails w then (failure "write", w)
    else (None, setPage (page w ++ [body]) w);
  TextTemplates_ExecuteTemplate name data w :=
    if textFails w then ("", failure "text", w)
    else (default "" (data !! "ConsentURL"), None, w);
  sendServerNotice req w :=
    if sendFails w (sendServerNoticeRequest.UserID req) then (failure "send", w)
    else (None, setOutbox (outbox w ++ [req]) w)
}.

(** A world where nothing fails. *)
Definition sound (s : gmap string (string * bool)) : World :=
  {| store := s; page := []; outbox := [];
     queryFails := false; listFails := false; updateFails := fun _ => false;
     renderFails := false; writeFails := false; textFails := false;
     sendFails := fun _ => false |}.

End Mem.

(** ** Concrete inputs *)

Module Sample.

Definition cfg : config.ClientAPI :=
  {| config.Matrix :=
      {| config.ServerName := "example.org";
         config.UserConsentOptions :=
           {| config.Version := "2";
              config.FormSecret := "s3cr3t";
              config.BaseURL := "https://example.org";
              config.ServerNoticeContent := {| config.MsgType := "m.text" |} |};
         config.ServerNotices := {| config.LocalPart := "_server" |} |} |}.

(** hex(HMAC-SHA256("s3cr3t", "@bob:example.org")) *)
Definition bobSignature : string :=
  "b0dc6cb31c3a7cce5681ebadd549c9d16b1a3c538bff7822cdba72c62c11d17f".

(** bob accepted version 1. *)
Definition bobStore : gmap string (string * bool) := {["bob" := ("1", false)]}.

(** Three users on version 1. *)
Definition threeUsers : gmap string (string * bool) :=
  {["u1" := ("1", false); "u2" := ("1", false); "u3" := ("1", false)]}.

(** The store update fails for every user. *)
Definition updatesFail (s : gmap string (string * bool)) : Mem.World :=
  {| Mem.store := s; Mem.page := []; Mem.outbox := [];
     Mem.queryFails := false; Mem.listFails := false;
     Mem.updateFails := fun _ => true;
     Mem.renderFails := false; Mem.writeFails := false; Mem.textFails := false;
     Mem.sendFails := fun _ => false |}.

(** The delivery to [user] fails. *)
Definition deliveryFails (user : string) (s : gmap string (string * bool))
  : Mem.World :=
  {| Mem.store := s; Mem.page := []; Mem.outbox := [];
     Mem.queryFails := false; Mem.listFails := false;
     Mem.updateFails := fun _ => false;
     Mem.renderFails := false; Mem.writeFails := false; Mem.textFails := false;
     Mem.sendFails := fun u => String.eqb u user |}.

(** The listing of the outdated users fails. *)
Definition listingFails (s : gmap string (string * bool)) : Mem.World :=
  {| Mem.store := s; Mem.page := []; Mem.outbox := [];
     Mem.queryFails := false; Mem.listFails := true;
     Mem.updateFails := fun _ => false;
     Mem.renderFails := false; Mem.writeFails := false; Mem.textFails := false;
     Mem.sendFails := fun _ => false |}.

End Sample.

(** ** Reading a trace *)

(** The three views of the consent page, told apart by the two flags of the
    template data. *)
Inductive View : Type := PublicView | PromptView | ConfirmedView.

Definition viewOf (d : constentTemplateData) : View :=
  if PublicVersion d then PublicView
  else if HasConsented d then ConfirmedView
  else PromptView.

Definition isStoreCall (e : Event) : bool :=
  match e with
  | CallQueryPolicyVersion _ _ _
  | CallPerformUpdatePolicyVersion _ _
  | CallQueryOutdatedPolicy _ _ _ => true
  | _ => false
  end.

(** The calls that reach the consent state store. *)
Definition storeCalls (tr : list Event) : list Event := List.filter isStoreCall tr.

Fixpoint storeWrites (tr : list Event) : list userapi.UpdatePolicyVersionRequest.t :=
  match tr with
  | [] => []
  | CallPerformUpdatePolicyVersion req _ :: rest => req :: storeWrites rest
  | _ :: rest => storeWrites rest
  end.

(** The template data of the pages rendered. *)
Fixpoint renders (tr : list Event) : list constentTemplateData :=
  match tr with
  | [] => []
  | CallTemplates _ data _ :: rest => data :: renders rest
  | _ :: rest => renders rest
  end.

(** The bodies written to the response outside the templates. *)
Fixpoint bodies (tr : list Event) : list string :=
  match tr with
  | [] => []
  | CallWrite body _ :: rest => body :: bodies rest
  | _ :: rest => bodies rest
  end.

Definition isValidHMACCall (e : Event) : bool :=
  match e with
  | CallValidHMAC _ _ _ => true
  | _ => false
  end.

Definition validHMACCalls (tr : list Event) : list Event :=
  List.filter isValidHMACCall tr.

(** The number of notices delivered. *)
Fixpoint delivered (tr : list Event) : Z :=
  match tr with
  | [] => 0
  | CallSendServerNotice _ None :: rest => 1 + delivered rest
  | _ :: rest => delivered rest
  end.

(** The number of store updates that succeeded. *)
Fixpoint recorded (tr : list Event) : Z :=
  match tr with
  | [] => 0
  | CallPerformUpdatePolicyVersion _ None :: rest => 1 + recorded rest
  | _ :: rest => recorded rest
  end.

(** The counts reported by "Sent messages to %d users". *)
Fixpoint reported (tr : list Event) : list Z :=
  match tr with
  | [] => []
  | LogSent n :: rest => n :: reported rest
  | _ :: rest => reported rest
  end.

(** The consent URLs handed to the notice template, one per user reached. *)
Fixpoint noticeURLs (tr : list Event) : list (option string) :=
  match tr with
  | [] => []
  | CallTextTemplates _ data _ _ :: rest => data !! "ConsentURL" :: noticeURLs rest
  | _ :: rest => noticeURLs rest
  end.

(** An update request of the dispatcher: the current policy version with the
    notice-triggered flag set. *)
Definition isNoticeUpdate (cfgClient : config.ClientAPI)
  (req : userapi.UpdatePolicyVersionRequest.t) : bool :=
  String.eqb (userapi.UpdatePolicyVersionRequest.PolicyVersion req)
    (config.Version (config.UserConsentOptions (config.Matrix cfgClient)))
  && userapi.UpdatePolicyVersionRequest.ServerNoticeUpdate req.

(** Every delivered notice is directly followed by one update request of the
    dispatcher, and no update request occurs anywhere else: in particular
    none follows a failed delivery. *)
Fixpoint recordedAfterDelivery (cfgClient : config.ClientAPI) (tr : list Event)
  : bool :=
  match tr with
  | [] => true
  | CallSendServerNotice _ None :: rest =>
      match rest with
      | CallPerformUpdatePolicyVersion req _ :: rest' =>
          isNoticeUpdate cfgClient req && recordedAfterDelivery cfgClient rest'
      | _ => false
      end
  | CallPerformUpdatePolicyVersion _ _ :: _ => false
  | _ :: rest => recordedAfterDelivery cfgClient rest
  end.

(** The users the dispatcher works on: all but the notice sender. *)
Definition notSender (cfgClient : config.ClientAPI) (userID : string) : bool :=
  negb (String.eqb userID
          (config.LocalPart (config.ServerNotices (config.Matrix cfgClient)))).

(** The consent URL minted for a local part. *)
Definition consentURLFor (cfgClient : config.ClientAPI) (userID : string) : string :=
  fst (buildConsentURI cfgClient
         ("@" +:+ userID +:+ ":" +:+ config.ServerName (config.Matrix cfgClient))).

(** ** Two sentences of the specification, as it states them *)

(** The POST success path: whenever [u] parses and [h] verifies, one store
    write of the request's [v] for the user, then the confirmed view. *)
Definition postSuccessAsSpecified {W : Type} `{Collaborators W}
  (req : Request) (cfg : config.ClientAPI) (w : W) : Prop :=
  forall localPart domain : string,
    Method req = "POST" ->
    SplitID "@" (FormValue req "u") = (localPart, domain, None) ->
    validHMAC (FormValue req "u") (FormValue req "h")
      (config.FormSecret (config.UserConsentOptions (config.Matrix cfg)))
      = (true, None) ->
    storeWrites (trace (consent req cfg) w)
      = [{| userapi.UpdatePolicyVersionRequest.PolicyVersion := FormValue req "v";
            userapi.UpdatePolicyVersionRequest.LocalPart := localPart;
            userapi.UpdatePolicyVersionRequest.ServerNoticeUpdate := false |}]
    /\ renders (trace (consent req cfg) w)
      = [{| User := FormValue req "u"; Version := FormValue req "v";
            UserHMAC := FormValue req "h";
            HasConsented := true; PublicVersion := false |}].

(** The count of the dispatcher: the number reported after the loop is the
    number of users both notified and recorded. A store update is only ever
    requested right after a delivered notice, so the updates that succeeded
    count these users. *)
Definition dispatchCountAsSpecified {W : Type} `{Collaborators W}
  (cfgClient : config.ClientAPI) (w : W) : Prop :=
  let tr := trace (sendServerNoticeForConsent cfgClient) w in
  forall n : Z, In n (reported tr) -> n = recorded tr.

(** A request that carries the three parameters of the link. *)
Definition linkRequest (method u v h : string) : Request :=
  {| Method := method;
     FormValue := fun key =>
       if String.eqb key "u" then u
       else if String.eqb key "v" then v
       else if String.eqb key "h" then h
       else "" |}.

(** ** Letter case of a signature *)

(** The ASCII lower case of one byte: the capitals A to Z move down by 32. *)
Definition lowerByte (c : byte) : byte :=
  let n := Bytes.to_Z c in
  if (65 <=? n) && (n <=? 90) then Bytes.of_Z (n + 32) else c.

(** A string with its ASCII capitals in lower case. *)
Definition lowerHex (s : string) : string :=
  Bytes.to_string (map lowerByte (Bytes.of_string s)).

(** ** More readings of a trace *)

(** The HTML templates executed, with their data. *)
Fixpoint templateCalls (tr : list Event) : list (string * constentTemplateData) :=
  match tr with
  | [] => []
  | CallTemplates name data _ :: rest => (name, data) :: templateCalls rest
  | _ :: rest => templateCalls rest
  end.

(** The text templates executed, with their data. *)
Fixpoint textCalls (tr : list Event) : list (string * gmap string string) :=
  match tr with
  | [] => []
  | CallTextTemplates name data _ _ :: rest => (name, data) :: textCalls rest
  | _ :: rest => textCalls rest
  end.

(** The notices handed to [sendServerNotice], delivered or not. *)
Fixpoint notices (tr : list Event) : list sendServerNoticeRequest.t :=
  match tr with
  | [] => []
  | CallSendServerNotice req _ :: rest => req :: notices rest
  | _ :: rest => notices rest
  end.

(** The user IDs of the notices delivered. *)
Fixpoint deliveredTo (tr : list Event) : list string :=
  match tr with
  | [] => []
  | CallSendServerNotice req None :: rest =>
      sendServerNoticeRequest.UserID req :: deliveredTo rest
  | _ :: rest => deliveredTo rest
  end.

(** The errors the collaborators returned, in order. *)
Fixpoint failedCalls (tr : list Event) : list error :=
  match tr with
  | [] => []
  | CallQueryPolicyVersion _ _ (Some e) :: rest
  | CallPerformUpdatePolicyVersion _ (Some e) :: rest
  | CallQueryOutdatedPolicy _ _ (Some e) :: rest
  | CallTemplates _ _ (Some e) :: rest
  | CallWrite _ (Some e) :: rest
  | CallTextTemplates _ _ _ (Some e) :: rest
  | CallSendServerNotice _ (Some e) :: rest => e :: failedCalls rest
  | _ :: rest => failedCalls rest
  end.

(** The errors logged, in order, each with its message. *)
Fixpoint loggedErrors (tr : list Event) : list (error * string) :=
  match tr with
  | [] => []
  | LogError e _ msg :: rest => (e, msg) :: loggedErrors rest
  | _ :: rest => loggedErrors rest
  end.

(** The announcements "Sending server notice to users ...", with their count. *)
Fixpoint announced (tr : list Event) : list Z :=
  match tr with
  | [] => []
  | LogSending n :: rest => n :: announced rest
  | _ :: rest => announced rest
  end.

(** [fmt.Sprintf("@%s:%s", userID, cfgClient.Matrix.ServerName)] *)
Definition fullUserID (cfgClient : config.ClientAPI) (localpart : string) : string :=
  "@" +:+ localpart +:+ ":" +:+ config.ServerName (config.Matrix cfgClient).

(** ** What the dispatcher keeps *)

(** The map handed to the notice template never holds more than the consent
    URL of one user. *)
Definition oneURL (data : gmap string string) : Prop :=
  data = ∅ \/ exists url : string, data = {["ConsentURL" := url]}.

(** A notice of the dispatcher for the local part [u]. *)
Definition noticeFor (cfgClient : config.ClientAPI) (u : string)
  (req : sendServerNoticeRequest.t) : Prop :=
  notSender cfgClient u = true
  /\ sendServerNoticeRequest.UserID req = fullUserID cfgClient u
  /\ sendServerNoticeRequest.MsgType (sendServerNoticeRequest.Content req)
     = config.MsgType
         (config.ServerNoticeContent
            (config.UserConsentOptions (config.Matrix cfgClient))).

(** What the dispatcher keeps in every iteration and every pass. *)
Definition passFacts (tr : list Event) : Prop :=
  map userapi.UpdatePolicyVersionRequest.LocalPart (storeWrites tr) = deliveredTo tr
  /\ map fst (loggedErrors tr) = failedCalls tr
  /\ Forall (fun l : error * string => snd l <> "unable to construct consentURI")
            (loggedErrors tr)
  /\ templateCalls tr = [] /\ bodies tr = [] /\ validHMACCalls tr = [].


(** ** More concrete inputs *)

Module Faulty.

(** The read of the accepted version fails. *)
Definition readFails (s : gmap string (string * bool)) : Mem.World :=
  {| Mem.store := s; Mem.page := []; Mem.outbox := [];
     Mem.queryFails := true; Mem.listFails := false;
     Mem.updateFails := fun _ => false;
     Mem.renderFails := false; Mem.writeFails := false; Mem.textFails := false;
     Mem.sendFails := fun _ => false |}.

(** The HTML templates fail. *)
Definition renderFails (s : gmap string (string * bool)) : Mem.World :=
  {| Mem.store := s; Mem.page := []; Mem.outbox := [];
     Mem.queryFails := false; Mem.listFails := false;
     Mem.updateFails := fun _ => false;
     Mem.renderFails := true; Mem.writeFails := false; Mem.textFails := false;
     Mem.sendFails := fun _ => false |}.

(** "b0dc...d17f" in capitals. *)
Definition bobSignatureCapitals : string :=
  "B0DC6CB31C3A7CCE5681EBADD549C9D16B1A3C538BFF7822CDBA72C62C11D17F".

(** Only the notice sender is outdated. *)
Definition senderOnly : gmap string (string * bool) := {["_server" := ("1", false)]}.

End Faulty.

(** ** One user of a pass, as the algorithm is specified

    The steps 2 to 6 of the dispatcher written out for one user, from the
    world the user is reached in: skip the notice sender; mint the link;
    render the notice body, and on failure log and stop; deliver the notice,
    and on failure log and stop with no store update; on delivery request
    the update to the current policy version with the notice-triggered flag,
    and log a failure of it. Nothing of the users before enters but the
    world they left. *)

Section SpecifiedPass.

Context {W : Type} `{Collaborators W}.

Definition specNoticeUser (cfgClient : config.ClientAPI) (localpart : string)
  (w : W) : list Event * W :=
  if negb (notSender cfgClient localpart) then ([], w)
  else
    let consentOpts := config.UserConsentOptions (config.Matrix cfgClient) in
    let userID := fullUserID cfgClient localpart in
    let data : gmap string string :=
      {["ConsentURL" := consentURLFor cfgClient localpart]} in
    let '(body, rendered, w1) :=
      TextTemplates_ExecuteTemplate "serverNoticeTemplate" data w in
    let render := CallTextTemplates "serverNoticeTemplate" data body rendered in
    match rendered with
    | Some e =>
        ([render;
          LogError e (Some userID) "unable to execute serverNoticeTemplate"], w1)
    | None =>
        let notice :=
          {| sendServerNoticeRequest.UserID := userID;
             sendServerNoticeRequest.Content :=
               {| sendServerNoticeRequest.MsgType :=
                    config.MsgType (config.ServerNoticeContent consentOpts);
                  sendServerNoticeRequest.Body := body |} |} in
        let '(sent, w2) := sendServerNotice notice w1 in
        match sent with
        | Some e =>
            ([render; CallSendServerNotice notice (Some e);
              LogError e (Some userID)
                "failed to send server notice for consent to user"], w2)
        | None =>
            let update :=
              {| userapi.UpdatePolicyVersionRequest.PolicyVersion :=
                   config.Version consentOpts;
                 userapi.UpdatePolicyVersionRequest.LocalPart := userID;
                 userapi.UpdatePolicyVersionRequest.ServerNoticeUpdate := true |} in
            let '(updated, w3) := PerformUpdatePolicyVersion update w2 in
            ([render; CallSendServerNotice notice None;
              CallPerformUpdatePolicyVersion update updated]
             ++ match updated with
                | Some e =>
                    [LogError e (Some userID) "failed to update policy version"]
                | None => []
                end, w3)
        end
    end.

(** The users one after the other, each from the world the one before left,
    whatever happened to that one. *)
Fixpoint specNoticeUsers (cfgClient : config.ClientAPI) (users : list string)
  (w : W) : list Event * W :=
  match users with
  | [] => ([], w)
  | localpart :: rest =>
      let '(t1, w1) := specNoticeUser cfgClient localpart w in
      let '(t2, w2) := specNoticeUsers cfgClient rest w1 in
      (t1 ++ t2, w2)
  end.

End SpecifiedPass.

(** * Properties *)

(** ** Strings and bytes *)

Lemma strlen_app (a b : string) :
  String.length (a +:+ b) = (String.length a + String.length b)%nat.
Proof. induction a as [|c a IH]; simpl; [reflexivity | now rewrite IH]. Qed.

Lemma strlen_to_string (l : list byte) :
  String.length (Bytes.to_string l) = length l.
Proof.
  unfold Bytes.to_string, String.string_of_list_byte.
  induction l as [|b l IH]; simpl; [reflexivity | now rewrite IH].
Qed.

Lemma of_string_to_string (l : list byte) :
  Bytes.of_string (Bytes.to_string l) = l.
Proof. apply String.list_byte_of_string_of_list_byte. Qed.

Lemma to_Z_inj (a b : byte) : Bytes.to_Z a = Bytes.to_Z b -> a = b.
Proof.
  unfold Bytes.to_Z. intros E. apply N2Z.inj in E.
  assert (S : Some a = Some b) by (rewrite <- !Byte.of_to_N; now rewrite E).
  now inversion S.
Qed.

Lemma to_Z_nonneg (a : byte) : 0 <= Bytes.to_Z a.
Proof. unfold Bytes.to_Z. lia. Qed.

(** ** The digest sizes *)

Lemma Sum256_length (msg : list byte) : length (SHA256.Sum256 msg) = 32%nat.
Proof.
  unfold SHA256.Sum256, SHA256.digest.
  destruct (SHA256.blocks _ _ _) as [[[[[[[h0 h1] h2] h3] h4] h5] h6] h7].
  reflexivity.
Qed.

Lemma HMAC_Sum_length (key msg : list byte) : length (HMAC.Sum key msg) = 32%nat.
Proof. unfold HMAC.Sum. apply Sum256_length. Qed.

(** The digests of FIPS 180-4 ("abc") and of RFC 4231 (test case 2). *)
Example Sum256_abc :
  Hex.EncodeToString (SHA256.Sum256 (Bytes.of_string "abc"))
  = "ba7816bf8f01cfea414140de5dae2223b00361a396177a9cb410ff61f20015ad".
Proof. vm_compute. reflexivity. Qed.

Example HMAC_Sum_rfc4231 :
  Hex.EncodeToString
    (HMAC.Sum (Bytes.of_string "Jefe")
              (Bytes.of_string "what do ya want for nothing?"))
  = "5bdcc146bf60754e6a042426089575c75a003f089d2739839dec58b964ec3843".
Proof. vm_compute. reflexivity. Qed.

(** A key longer than the block is hashed first (RFC 4231, test case 6). *)
Example HMAC_Sum_long_key :
  Hex.EncodeToString
    (HMAC.Sum (repeat xaa 131)
       (Bytes.of_string "Test Using Larger Than Block-Size Key - Hash Key First"))
  = "60e431591ee0b67f0d8a26aacbf5b77f8e0bc6213728c5140546040f0ee37f54".
Proof. vm_compute. reflexivity. Qed.

(** ** Constant-time comparison is equality *)

Lemma or_xor_zero (x y : list byte) (v : Z) :
  0 <= v -> length x = length y ->
  HMAC.or_xor v x y = 0 <-> v = 0 /\ x = y.
Proof.
  revert y v. induction x as [|a x IH]; intros [|b y] v Hv Hlen;
    simpl in *; try discriminate.
  - intuition.
  - injection Hlen as Hlen.
    assert (Hx : 0 <= Z.lxor (Bytes.to_Z a) (Bytes.to_Z b))
      by (apply Z.lxor_nonneg; pose proof (to_Z_nonneg a); pose proof (to_Z_nonneg b); lia).
    rewrite IH by (try apply Z.lor_nonneg; auto).
    rewrite Z.lor_eq_0_iff, Z.lxor_eq_0_iff.
    split.
    + intros [[-> E] ->]. apply to_Z_inj in E. now subst.
    + intros [-> E]. injection E as -> ->. auto.
Qed.

Lemma Equal_spec (a b : list byte) : HMAC.Equal a b = true <-> a = b.
Proof.
  unfold HMAC.Equal, HMAC.ConstantTimeCompare.
  destruct (Nat.eqb_spec (length a) (length b)) as [E|NE]; simpl.
  - destruct (Z.eqb_spec (HMAC.or_xor 0 a b) 0) as [Z0|NZ].
    + apply or_xor_zero in Z0; [|lia|exact E]. intuition.
    + split; [discriminate|]. intros ->. exfalso. apply NZ.
      apply or_xor_zero; auto. lia.
  - split; [discriminate|]. intros ->. congruence.
Qed.

Lemma Equal_length (a b : list byte) :
  HMAC.Equal a b = true -> length a = length b.
Proof. intros E. apply Equal_spec in E. now subst. Qed.

(** ** Hex decoding *)

Lemma Decode_length_le (n : nat) (src d : list byte) :
  (length src <= n)%nat -> Hex.Decode src = (d, None) ->
  length src = (2 * length d)%nat.
Proof.
  revert src d. induction n as [|n IH]; intros src d Hn E.
  - destruct src; simpl in *; [|lia]. injection E as <-. reflexivity.
  - destruct src as [|p [|q rest]]; simpl in E.
    + injection E as <-. reflexivity.
    + destruct (Hex.fromHexChar p); discriminate.
    + destruct (Hex.fromHexChar p); [|discriminate].
      destruct (Hex.fromHexChar q); [|discriminate].
      destruct (Hex.Decode rest) as [dst err] eqn:Er.
      injection E as <- ->.
      simpl in Hn. apply IH in Er; [|lia]. simpl. lia.
Qed.

Lemma Decode_length (src d : list byte) :
  Hex.Decode src = (d, None) -> length src = (2 * length d)%nat.
Proof. apply (Decode_length_le (length src)). lia. Qed.

Lemma hex_digit_roundtrip (v : byte) :
  Hex.fromHexChar (Hex.hextable (Z.shiftr (Bytes.to_Z v) 4))
    = Some (Z.shiftr (Bytes.to_Z v) 4)
  /\ Hex.fromHexChar (Hex.hextable (Z.land (Bytes.to_Z v) 15))
    = Some (Z.land (Bytes.to_Z v) 15)
  /\ Bytes.of_Z (Z.lor (Z.shiftl (Z.shiftr (Bytes.to_Z v) 4) 4)
                       (Z.land (Bytes.to_Z v) 15)) = v.
Proof. destruct v; vm_compute; auto. Qed.

Lemma Decode_Encode (l : list byte) : Hex.Decode (Hex.Encode l) = (l, None).
Proof.
  induction l as [|v l IH]; [reflexivity|].
  destruct (hex_digit_roundtrip v) as (Hhi & Hlo & Hv).
  cbn [Hex.Encode Hex.Decode]. rewrite Hhi, Hlo, IH, Hv. reflexivity.
Qed.

(** ** The signed link *)

(** What the verifier is written for: a signature sent as hex, as in the link
    format of the specification, verifies. *)
Lemma hex_signature_verifies (identity secret : string) :
  validHMAC identity
    (Hex.EncodeToString (HMAC.Sum (Bytes.of_string secret) (Bytes.of_string identity)))
    secret = (true, None).
Proof.
  unfold validHMAC, Hex.DecodeString, Hex.EncodeToString.
  rewrite of_string_to_string, Decode_Encode.
  f_equal. now apply Equal_spec.
Qed.

(** A byte string of the size of the digest never verifies: it is either not
    hex, or decodes to half as many bytes as the digest has. *)
Lemma raw_digest_rejected (username secret : string) (raw : list byte) :
  length raw = 32%nat ->
  fst (validHMAC username (Bytes.to_string raw) secret) = false.
Proof.
  intros Hraw. unfold validHMAC, Hex.DecodeString.
  rewrite of_string_to_string.
  destruct (Hex.Decode raw) as [decoded [e|]] eqn:E; [reflexivity|].
  apply Decode_length in E. simpl.
  destruct (HMAC.Equal decoded _) eqn:Eq; [|reflexivity].
  apply Equal_length in Eq. rewrite HMAC_Sum_length in Eq. lia.
Qed.

(** C1 (the code departs from the claim). The link carries in [h] the raw
    bytes of the HMAC, and [validHMAC] on that value, the same identity and
    the same secret never returns true: the round trip of the specification
    fails for every identity and every secret. *)
Theorem minted_signature_does_not_verify
  (cfgClient : config.ClientAPI) (userID : string) :
  let consentOpts := config.UserConsentOptions (config.Matrix cfgClient) in
  let h := Bytes.to_string (userMAC cfgClient userID) in
  buildConsentURI cfgClient userID
    = (config.BaseURL consentOpts +:+ "/_matrix/client/consent?u=" +:+ userID
         +:+ "&h=" +:+ h +:+ "&v=" +:+ config.Version consentOpts, None)
  /\ fst (validHMAC userID h (config.FormSecret consentOpts)) = false.
Proof.
  split; [reflexivity|].
  apply raw_digest_rejected. apply HMAC_Sum_length.
Qed.

(** The round trip at a concrete link: the first byte of the HMAC, 0xb0, is
    not a hex digit and the decoding fails on it. *)
Example bob_link_signature_rejected :
  validHMAC "@bob:example.org"
    (Bytes.to_string (userMAC Sample.cfg "@bob:example.org")) "s3cr3t"
  = (false, Some (InvalidByteError xb0)).
Proof. vm_compute. reflexivity. Qed.

(** C2 (the code departs from the claim). The link built by the code is never
    the link of the specification: its [h] parameter is the HMAC itself, 32
    bytes, where the specification has the 64 hex digits that encode it. *)
Theorem consent_link_is_not_hex_encoded
  (cfgClient : config.ClientAPI) (userID : string) :
  let consentOpts := config.UserConsentOptions (config.Matrix cfgClient) in
  fst (buildConsentURI cfgClient userID)
  <> specLink (config.BaseURL consentOpts) userID
       (config.FormSecret consentOpts) (config.Version consentOpts).
Proof.
  intros consentOpts E. apply (f_equal String.length) in E.
  unfold buildConsentURI, specLink, userMAC, Hex.EncodeToString in E.
  cbn [fst] in E. fold consentOpts in E.
  rewrite !strlen_app, !strlen_to_string in E.
  assert (Henc : forall l, length (Hex.Encode l) = (2 * length l)%nat).
  { induction l as [|v l IH]; simpl; [reflexivity | rewrite IH; lia]. }
  rewrite Henc, !HMAC_Sum_length in E. lia.
Qed.

(** The link of the sample configuration, byte for byte. *)
Example bob_link :
  String.length (fst (buildConsentURI Sample.cfg "@bob:example.org")) = 100%nat
  /\ String.length (specLink "https://example.org" "@bob:example.org" "s3cr3t" "2")
     = 132%nat.
Proof. vm_compute. split; reflexivity. Qed.

(** ** The request handler *)

Ltac go_unfold :=
  unfold trace, result, world, run, consent, consentGet, consentGetData,
    consentPost, call_validHMAC, logError,
    userAPI_QueryPolicyVersion, userAPI_PerformUpdatePolicyVersion,
    userAPI_QueryOutdatedPolicy, Templates_Execute, writer_WriteString,
    TextTemplates_Execute, call_sendServerNotice, bind, ret, emit in *.

Lemma eqb_empty_false (s : string) : s <> "" -> String.eqb s "" = false.
Proof. intros Hs. now apply String.eqb_neq. Qed.

(** The flag computed first on GET: some parameter of the link is missing. *)
Lemma public_flag_true (u v h : string) :
  u = "" \/ v = "" \/ h = "" ->
  String.eqb u "" || String.eqb h "" || String.eqb v "" = true.
Proof.
  intros [-> | [-> | ->]]; cbn;
    rewrite ?orb_true_r; reflexivity.
Qed.

Lemma public_flag_false (u v h : string) :
  u <> "" -> v <> "" -> h <> "" ->
  String.eqb u "" || String.eqb h "" || String.eqb v "" = false.
Proof. intros Hu Hv Hh. now rewrite !eqb_empty_false. Qed.

(** C7. A GET request with one of [u], [v], [h] empty renders the public view
    and calls the consent state store not at all. *)
Theorem get_without_link_parameters_is_public
  {W : Type} `{Collaborators W}
  (req : Request) (cfg : config.ClientAPI) (w : W) :
  Method req = "GET" ->
  FormValue req "u" = "" \/ FormValue req "v" = "" \/ FormValue req "h" = "" ->
  let tr := trace (consent req cfg) w in
  let data :=
    {| User := FormValue req "u"; Version := FormValue req "v";
       UserHMAC := FormValue req "h";
       HasConsented := false; PublicVersion := true |} in
  storeCalls tr = [] /\ renders tr = [data] /\ viewOf data = PublicView.
Proof.
  intros Hm Hempty tr data. subst tr data.
  go_unfold. rewrite Hm. cbn [String.eqb Ascii.eqb Bool.eqb].
  unfold setPublicVersion. cbn [User Version UserHMAC PublicVersion HasConsented].
  rewrite (public_flag_true _ _ _ Hempty). cbn [negb].
  destruct (Templates_ExecuteTemplate _ _ w) as [[e|] w1]; cbn; auto.
Qed.

(** A GET request with the three parameters, a parsable [u] and a store read
    that succeeds: one read, then the template with the flag computed from
    the stored version. *)
Lemma get_personalised_run
  {W : Type} `{Collaborators W}
  (req : Request) (cfg : config.ClientAPI) (w w1 : W)
  (localPart domain : string) (res : userapi.QueryPolicyVersionResponse.t) :
  Method req = "GET" ->
  FormValue req "u" <> "" -> FormValue req "v" <> "" -> FormValue req "h" <> "" ->
  SplitID "@" (FormValue req "u") = (localPart, domain, None) ->
  QueryPolicyVersion
    {| userapi.QueryPolicyVersionRequest.LocalPart := localPart |} w
    = (res, None, w1) ->
  let consentCfg := config.UserConsentOptions (config.Matrix cfg) in
  let data :=
    {| User := FormValue req "u"; Version := FormValue req "v";
       UserHMAC := FormValue req "h";
       HasConsented :=
         String.eqb (userapi.QueryPolicyVersionResponse.PolicyVersion res)
           (config.Version consentCfg);
       PublicVersion := false |} in
  let name := config.Version consentCfg +:+ ".gohtml" in
  consent req cfg w =
    (None, snd (Templates_ExecuteTemplate name data w1),
     [CallQueryPolicyVersion
        {| userapi.QueryPolicyVersionRequest.LocalPart := localPart |} res None;
      CallTemplates name data (fst (Templates_ExecuteTemplate name data w1))]
     ++ match fst (Templates_ExecuteTemplate name data w1) with
        | Some e => [LogError e None "unable to print consent template"]
        | None => []
        end).
Proof.
  intros Hm Hu Hv Hh Hsplit Hq consentCfg data name. subst data name.
  go_unfold. rewrite Hm. cbn [String.eqb Ascii.eqb Bool.eqb].
  unfold setPublicVersion, setHasConsented.
  cbn [User Version UserHMAC PublicVersion HasConsented].
  rewrite (public_flag_false _ _ _ Hu Hv Hh). cbn [negb].
  rewrite Hsplit, Hq.
  destruct (Templates_ExecuteTemplate _ _ w1) as [[e|] w2]; reflexivity.
Qed.

(** C6. A GET request with [u], [v], [h] non-empty, a parsable [u] and a
    store read that succeeds makes exactly one store call, the read of that
    user, and renders the confirmed view exactly when the stored version is
    the configured current version, the prompt view otherwise. *)
Theorem get_view_follows_stored_version
  {W : Type} `{Collaborators W}
  (req : Request) (cfg : config.ClientAPI) (w w1 : W)
  (localPart domain : string) (res : userapi.QueryPolicyVersionResponse.t) :
  Method req = "GET" ->
  FormValue req "u" <> "" -> FormValue req "v" <> "" -> FormValue req "h" <> "" ->
  SplitID "@" (FormValue req "u") = (localPart, domain, None) ->
  QueryPolicyVersion
    {| userapi.QueryPolicyVersionRequest.LocalPart := localPart |} w
    = (res, None, w1) ->
  let tr := trace (consent req cfg) w in
  let stored := userapi.QueryPolicyVersionResponse.PolicyVersion res in
  let current := config.Version (config.UserConsentOptions (config.Matrix cfg)) in
  storeCalls tr
    = [CallQueryPolicyVersion
         {| userapi.QueryPolicyVersionRequest.LocalPart := localPart |} res None]
  /\ exists data,
       renders tr = [data]
       /\ (viewOf data = ConfirmedView <-> stored = current)
       /\ (viewOf data = PromptView <-> stored <> current)
       /\ (HasConsented data = true <-> stored = current).
Proof.
  intros Hm Hu Hv Hh Hsplit Hq tr stored current. subst tr.
  unfold trace.
  rewrite (get_personalised_run req cfg w w1 localPart domain res Hm Hu Hv Hh Hsplit Hq).
  cbn [snd]. split.
  - destruct (fst (Templates_ExecuteTemplate _ _ w1)); reflexivity.
  - eexists. split.
    + destruct (fst (Templates_ExecuteTemplate _ _ w1)); reflexivity.
    + unfold viewOf. cbn [PublicVersion HasConsented].
      fold stored current.
      destruct (String.eqb_spec stored current) as [E|NE];
        repeat split; intros; try congruence; try discriminate.
Qed.

(** C10. On GET the signature is never verified: [validHMAC] is not called,
    and two requests that differ only in a non-empty [h] make the same store
    call and render a page with the same flags, whatever the two [h] are. *)
Theorem get_never_verifies_signature
  {W : Type} `{Collaborators W}
  (req1 req2 : Request) (cfg : config.ClientAPI) (w w1 : W)
  (localPart domain : string) (res : userapi.QueryPolicyVersionResponse.t) :
  Method req1 = "GET" -> Method req2 = "GET" ->
  FormValue req2 "u" = FormValue req1 "u" ->
  FormValue req2 "v" = FormValue req1 "v" ->
  FormValue req1 "u" <> "" -> FormValue req1 "v" <> "" ->
  FormValue req1 "h" <> "" -> FormValue req2 "h" <> "" ->
  SplitID "@" (FormValue req1 "u") = (localPart, domain, None) ->
  QueryPolicyVersion
    {| userapi.QueryPolicyVersionRequest.LocalPart := localPart |} w
    = (res, None, w1) ->
  let tr1 := trace (consent req1 cfg) w in
  let tr2 := trace (consent req2 cfg) w in
  let flags := fun d => (PublicVersion d, HasConsented d) in
  validHMACCalls tr1 = [] /\ validHMACCalls tr2 = []
  /\ storeCalls tr1 = storeCalls tr2
  /\ length (renders tr1) = 1%nat
  /\ map flags (renders tr1) = map flags (renders tr2)
  /\ map viewOf (renders tr1) = map viewOf (renders tr2).
Proof.
  intros Hm1 Hm2 Eu Ev Hu Hv Hh1 Hh2 Hsplit Hq tr1 tr2 flags.
  subst tr1 tr2 flags. unfold trace.
  rewrite (get_personalised_run req1 cfg w w1 localPart domain res
             Hm1 Hu Hv Hh1 Hsplit Hq).
  rewrite <- Eu in Hu, Hsplit. rewrite <- Ev in Hv.
  rewrite (get_personalised_run req2 cfg w w1 localPart domain res
             Hm2 Hu Hv Hh2 Hsplit Hq).
  cbn [snd].
  repeat match goal with
         | |- context [fst (Templates_ExecuteTemplate ?n ?d ?x)] =>
             destruct (fst (Templates_ExecuteTemplate n d x))
         end; repeat split; reflexivity.
Qed.

(** C4. A POST request whose [u] parses and whose [h] is not hex, or is the
    hex of other bytes than the HMAC of [u], is answered with the body
    "invalid HMAC provided" and the internal-error status, and the store is
    never called: the world changes by that one write to the response only.
    A decoding failure takes the same path as a mismatch. *)
Theorem post_invalid_signature_is_rejected
  {W : Type} `{Collaborators W}
  (req : Request) (cfg : config.ClientAPI) (w : W) (localPart domain : string) :
  let secret := config.FormSecret (config.UserConsentOptions (config.Matrix cfg)) in
  let u := FormValue req "u" in
  let h := FormValue req "h" in
  Method req = "POST" ->
  SplitID "@" u = (localPart, domain, None) ->
  snd (Hex.DecodeString h) <> None
  \/ fst (Hex.DecodeString h)
       <> HMAC.Sum (Bytes.of_string secret) (Bytes.of_string u) ->
  let tr := trace (consent req cfg) w in
  run (consent req cfg) w
    = (Some InternalServerError,
       snd (writer_Write "invalid HMAC provided" w),
       [CallValidHMAC u h secret;
        CallWrite "invalid HMAC provided"
          (fst (writer_Write "invalid HMAC provided" w))])
  /\ Code InternalServerError = 500
  /\ bodies tr = ["invalid HMAC provided"]
  /\ storeCalls tr = [] /\ renders tr = [].
Proof.
  intros secret u h Hm Hsplit Hbad.
  assert (Hv : exists ok err, validHMAC u h secret = (ok, err)
                              /\ notNil err || negb ok = true).
  { unfold validHMAC. fold secret.
    destruct (Hex.DecodeString h) as [decoded [e|]] eqn:Ed; cbn [fst snd] in Hbad.
    - eexists _, _. split; reflexivity.
    - eexists _, _. split; [reflexivity|]. cbn [notNil orb].
      destruct (HMAC.Equal decoded _) eqn:Eq; [|reflexivity].
      apply Equal_spec in Eq. destruct Hbad as [Hbad|Hbad]; congruence. }
  destruct Hv as (ok & err & Hv & Hrej).
  assert (Hrun : run (consent req cfg) w
    = (Some InternalServerError,
       snd (writer_Write "invalid HMAC provided" w),
       [CallValidHMAC u h secret;
        CallWrite "invalid HMAC provided"
          (fst (writer_Write "invalid HMAC provided" w))])).
  { go_unfold.
    assert (Hne : String.eqb (Method req) "GET" = false)
      by (rewrite Hm; reflexivity).
    rewrite Hne, Hm. cbn [String.eqb Ascii.eqb Bool.eqb].
    cbn [User Version UserHMAC]. fold u h secret.
    rewrite Hsplit, Hv. cbv beta iota. rewrite Hrej.
    destruct (writer_Write "invalid HMAC provided" w) as [[e|] w1]; reflexivity. }
  intros tr. subst tr. unfold trace, run in *. rewrite Hrun.
  repeat split; reflexivity.
Qed.

(** C3 (amended). A POST request whose [u] parses and whose [h] verifies makes
    exactly one store call, the write of the request's [v] for that user; when
    the write succeeds the confirmed view is rendered next, and when it fails
    nothing is rendered and the answer is the internal error. *)
Theorem post_valid_signature_writes_then_confirms
  {W : Type} `{Collaborators W}
  (req : Request) (cfg : config.ClientAPI) (w : W) (localPart domain : string) :
  let consentCfg := config.UserConsentOptions (config.Matrix cfg) in
  let u := FormValue req "u" in
  let v := FormValue req "v" in
  let h := FormValue req "h" in
  Method req = "POST" ->
  SplitID "@" u = (localPart, domain, None) ->
  validHMAC u h (config.FormSecret consentCfg) = (true, None) ->
  let update :=
    {| userapi.UpdatePolicyVersionRequest.PolicyVersion := v;
       userapi.UpdatePolicyVersionRequest.LocalPart := localPart;
       userapi.UpdatePolicyVersionRequest.ServerNoticeUpdate := false |} in
  let data :=
    {| User := u; Version := v; UserHMAC := h;
       HasConsented := true; PublicVersion := false |} in
  let name := config.Version consentCfg +:+ ".gohtml" in
  let tr := trace (consent req cfg) w in
  storeWrites tr = [update]
  /\ length (storeCalls tr) = 1%nat
  /\ match PerformUpdatePolicyVersion update w with
     | (None, w1) =>
         firstn 3 tr
           = [CallValidHMAC u h (config.FormSecret consentCfg);
              CallPerformUpdatePolicyVersion update None;
              CallTemplates name data (fst (Templates_ExecuteTemplate name data w1))]
         /\ renders tr = [data] /\ viewOf data = ConfirmedView
     | (Some _, _) =>
         renders tr = []
         /\ result (consent req cfg) w = Some InternalServerError
     end.
Proof.
  intros consentCfg u v h Hm Hsplit Hvalid update data name tr.
  subst tr. go_unfold.
  assert (Hne : String.eqb (Method req) "GET" = false)
    by (rewrite Hm; reflexivity).
  rewrite Hne, Hm. cbn [String.eqb Ascii.eqb Bool.eqb].
  unfold setPublicVersion, setHasConsented.
  cbn [User Version UserHMAC PublicVersion HasConsented].
  fold consentCfg u v h. rewrite Hsplit, Hvalid. cbv beta iota.
  cbn [notNil negb orb]. fold update data name.
  destruct (PerformUpdatePolicyVersion update w) as [[e|] w1].
  - destruct (writer_Write "unable to update database" w1) as [[e'|] w2];
      repeat split; reflexivity.
  - destruct (Templates_ExecuteTemplate name data w1) as [[e'|] w2];
      repeat split; reflexivity.
Qed.

(** ** The dispatcher *)

(** *** Traces of consecutive runs *)

Lemma delivered_app (a b : list Event) :
  delivered (a ++ b) = delivered a + delivered b.
Proof.
  induction a as [|e a IH]; [reflexivity|].
  destruct e as [| | | | | |? [?|]| | | |]; cbn [app delivered]; lia.
Qed.

Lemma recorded_app (a b : list Event) :
  recorded (a ++ b) = recorded a + recorded b.
Proof.
  induction a as [|e a IH]; [reflexivity|].
  destruct e as [|? [?|]| | | | | | | | |]; cbn [app recorded]; lia.
Qed.

Lemma reported_app (a b : list Event) :
  reported (a ++ b) = reported a ++ reported b.
Proof.
  induction a as [|e a IH]; [reflexivity|].
  destruct e; cbn [app reported]; now rewrite ?IH.
Qed.

Lemma noticeURLs_app (a b : list Event) :
  noticeURLs (a ++ b) = noticeURLs a ++ noticeURLs b.
Proof.
  induction a as [|e a IH]; [reflexivity|].
  destruct e; cbn [app noticeURLs]; now rewrite ?IH.
Qed.

Lemma storeWrites_app (a b : list Event) :
  storeWrites (a ++ b) = storeWrites a ++ storeWrites b.
Proof.
  induction a as [|e a IH]; [reflexivity|].
  destruct e; cbn [app storeWrites]; now rewrite ?IH.
Qed.

(** A trace in which every delivery has its update can be continued. *)
Lemma recordedAfterDelivery_app (cfgClient : config.ClientAPI) (a b : list Event) :
  recordedAfterDelivery cfgClient a = true ->
  recordedAfterDelivery cfgClient (a ++ b) = recordedAfterDelivery cfgClient b.
Proof.
  remember (length a) as n eqn:Hn.
  revert a Hn. induction n as [n IH] using lt_wf_ind. intros a Hn Ha.
  destruct a as [|e a]; [reflexivity|].
  destruct e as [| | | | | |req [err|]| | | |];
    cbn [app recordedAfterDelivery] in *;
    try discriminate;
    try (apply (IH (length a)); [subst n; cbn; lia | reflexivity | exact Ha]).
  destruct a as [|e' a]; [discriminate|].
  destruct e'; try discriminate. cbn [app].
  apply andb_prop in Ha. destruct Ha as [Hu Ha]. rewrite Hu. cbn [andb].
  apply (IH (length a)); [subst n; cbn; lia | reflexivity | exact Ha].
Qed.

(** *** One user *)

Ltac trace_cbn :=
  cbn [delivered recorded reported noticeURLs recordedAfterDelivery
       storeWrites app fst snd length andb
       userapi.UpdatePolicyVersionRequest.PolicyVersion
       userapi.UpdatePolicyVersionRequest.ServerNoticeUpdate].

Ltac trace_simpl := trace_cbn; unfold isNoticeUpdate; trace_cbn.

Ltac trace_done :=
  repeat split; try reflexivity; cbn [length Z.of_nat Pos.of_succ_nat]; lia.

Lemma int_wrap_small (x : Z) : - 2 ^ 63 <= x < 2 ^ 63 -> int_wrap x = x.
Proof.
  intros Hx. unfold int_wrap.
  rewrite Z.mod_small by lia. lia.
Qed.

(** What one iteration of the loop leaves behind, whatever fails in it. *)
Lemma noticeUser_spec
  {W : Type} `{Collaborators W}
  (cfgClient : config.ClientAPI) (data : gmap string string) (count : Z)
  (userID : string) (w : W) :
  let tr := trace (noticeUser cfgClient (data, count) userID) w in
  let count' := snd (result (noticeUser cfgClient (data, count) userID) w) in
  0 <= delivered tr <= 1
  /\ count' = (if delivered tr =? 0 then count else int_wrap (count + 1))
  /\ recordedAfterDelivery cfgClient tr = true
  /\ Z.of_nat (length (storeWrites tr)) = delivered tr
  /\ recorded tr <= delivered tr
  /\ reported tr = []
  /\ noticeURLs tr
     = (if notSender cfgClient userID
        then [Some (consentURLFor cfgClient userID)] else []).
Proof.
  unfold noticeUser, notSender, consentURLFor, buildConsentURI.
  go_unfold. cbv beta iota zeta.
  destruct (String.eqb userID _); cbn [negb fst snd];
    [trace_simpl; trace_done|].
  destruct (TextTemplates_ExecuteTemplate _ _ w) as [[out [e|]] w1];
    trace_simpl; rewrite ?lookup_insert_eq; [trace_done|].
  destruct (sendServerNotice _ w1) as [[e|] w2];
    trace_simpl; rewrite ?lookup_insert_eq; [trace_done|].
  destruct (PerformUpdatePolicyVersion _ w2) as [[e|] w3];
    trace_simpl; rewrite ?lookup_insert_eq, ?String.eqb_refl; trace_done.
Qed.

(** *** The loop *)

Lemma noticeUsers_cons
  {W : Type} `{Collaborators W}
  (cfgClient : config.ClientAPI) (userID : string) (rest : list string)
  (acc : gmap string string * Z) (w : W) :
  noticeUsers cfgClient (userID :: rest) acc w
  = (let '(acc', w1, t1) := noticeUser cfgClient acc userID w in
     let '(acc'', w2, t2) := noticeUsers cfgClient rest acc' w1 in
     (acc'', w2, t1 ++ t2)).
Proof. reflexivity. Qed.

(** The loop never stops early: a user is worked on after whatever happened
    to the users before. *)
Lemma noticeUsers_app
  {W : Type} `{Collaborators W}
  (cfgClient : config.ClientAPI) (before after : list string)
  (acc : gmap string string * Z) (w : W) :
  noticeUsers cfgClient (before ++ after) acc w
  = (let '(acc', w1, t1) := noticeUsers cfgClient before acc w in
     let '(acc'', w2, t2) := noticeUsers cfgClient after acc' w1 in
     (acc'', w2, t1 ++ t2)).
Proof.
  revert acc w. induction before as [|u before IH]; intros acc w.
  - cbn [app noticeUsers]. unfold ret.
    destruct (noticeUsers cfgClient after acc w) as [[acc'' w2] t2]. reflexivity.
  - cbn [app]. rewrite !noticeUsers_cons.
    destruct (noticeUser cfgClient acc u w) as [[acc1 w1] t1].
    rewrite IH.
    destruct (noticeUsers cfgClient before acc1 w1) as [[acc2 w2] t2].
    destruct (noticeUsers cfgClient after acc2 w2) as [[acc3 w3] t3].
    now rewrite app_assoc.
Qed.

Lemma noticeUsers_spec
  {W : Type} `{Collaborators W}
  (cfgClient : config.ClientAPI) (users : list string) :
  forall (data : gmap string string) (count : Z) (w : W),
  let tr := trace (noticeUsers cfgClient users (data, count)) w in
  let count' := snd (result (noticeUsers cfgClient users (data, count)) w) in
  0 <= delivered tr <= Z.of_nat (length users)
  /\ (0 <= count -> count + Z.of_nat (length users) < 2 ^ 63 ->
      count' = count + delivered tr)
  /\ recordedAfterDelivery cfgClient tr = true
  /\ Z.of_nat (length (storeWrites tr)) = delivered tr
  /\ recorded tr <= delivered tr
  /\ reported tr = []
  /\ noticeURLs tr
     = map (fun u => Some (consentURLFor cfgClient u))
           (List.filter (notSender cfgClient) users).
Proof.
  induction users as [|u users IH]; intros data count w.
  - cbn. repeat split; try reflexivity; lia.
  - unfold trace, result. rewrite noticeUsers_cons.
    pose proof (noticeUser_spec cfgClient data count u w) as Hu.
    unfold trace, result in Hu.
    destruct (noticeUser cfgClient (data, count) u w) as [[[data1 count1] w1] t1].
    specialize (IH data1 count1 w1). unfold trace, result in IH.
    destruct (noticeUsers cfgClient users (data1, count1) w1)
      as [[[data2 count2] w2] t2].
    cbn [fst snd] in *.
    destruct Hu as (Hd1 & Hc1 & Ha1 & Hw1 & Hr1 & Hp1 & Hn1).
    destruct IH as (Hd2 & Hc2 & Ha2 & Hw2 & Hr2 & Hp2 & Hn2).
    rewrite delivered_app, recorded_app, reported_app, noticeURLs_app,
      storeWrites_app, length_app, (recordedAfterDelivery_app _ _ _ Ha1).
    rewrite Hp1, Hp2, Hn1, Hn2.
    cbn [length List.filter map].
    repeat split; try assumption; try lia.
    + intros Hcount Hbound.
      assert (Hcount1 : count1 = count + delivered t1).
      { rewrite Hc1. destruct (Z.eqb_spec (delivered t1) 0) as [E|NE]; [lia|].
        rewrite int_wrap_small; lia. }
      rewrite Hc2; lia.
    + destruct (notSender cfgClient u); reflexivity.
Qed.

(** *** The pass *)

(** The pass after a listing that succeeded: the listing, the announcement,
    the loop from an empty map and a zero counter, the report. *)
Lemma dispatch_run
  {W : Type} `{Collaborators W}
  (cfgClient : config.ClientAPI) (w w1 : W)
  (res : userapi.QueryOutdatedPolicyResponse.t) :
  let query :=
    {| userapi.QueryOutdatedPolicyRequest.PolicyVersion :=
         config.Version (config.UserConsentOptions (config.Matrix cfgClient)) |} in
  let users := userapi.QueryOutdatedPolicyResponse.OutdatedUsers res in
  QueryOutdatedPolicy query w = (res, None, w1) ->
  trace (sendServerNoticeForConsent cfgClient) w
  = [CallQueryOutdatedPolicy query res None]
    ++ (if 0 <? Z.of_nat (length users)
        then [LogSending (Z.of_nat (length users))] else [])
    ++ trace (noticeUsers cfgClient users (∅, 0)) w1
    ++ (if 0 <? snd (result (noticeUsers cfgClient users (∅, 0)) w1)
        then [LogSent (snd (result (noticeUsers cfgClient users (∅, 0)) w1))]
        else []).
Proof.
  intros query users Hq.
  unfold sendServerNoticeForConsent. go_unfold. fold query. rewrite Hq.
  cbv beta iota zeta. fold users.
  destruct (0 <? Z.of_nat (length users));
    destruct (noticeUsers cfgClient users (∅, 0) w1) as [[[data c] w2] t];
    cbn [fst snd]; destruct (0 <? c); cbn [app];
    rewrite ?app_nil_r; reflexivity.
Qed.

(** C5 (amended). In a dispatch pass every delivered notice is directly
    followed by one store update request that carries the current policy
    version with the notice-triggered flag set; update requests are made
    nowhere else, so a user whose delivery fails gets none; and the count
    reported after the loop is the number of notices delivered, whether or
    not the update that followed succeeded. *)
Theorem dispatch_reports_deliveries_and_records_after_each
  {W : Type} `{Collaborators W}
  (cfgClient : config.ClientAPI) (w : W) :
  let query :=
    {| userapi.QueryOutdatedPolicyRequest.PolicyVersion :=
         config.Version (config.UserConsentOptions (config.Matrix cfgClient)) |} in
  let users :=
    userapi.QueryOutdatedPolicyResponse.OutdatedUsers
      (fst (fst (QueryOutdatedPolicy query w))) in
  Z.of_nat (length users) < 2 ^ 63 ->
  let tr := trace (sendServerNoticeForConsent cfgClient) w in
  recordedAfterDelivery cfgClient tr = true
  /\ Z.of_nat (length (storeWrites tr)) = delivered tr
  /\ reported tr = (if 0 <? delivered tr then [delivered tr] else [])
  /\ recorded tr <= delivered tr.
Proof.
  intros query users Hlen.
  destruct (QueryOutdatedPolicy query w) as [[res [e|]] w1] eqn:Hq.
  - intros tr. subst tr. unfold sendServerNoticeForConsent. go_unfold.
    fold query. rewrite Hq. cbv beta iota zeta. cbn.
    repeat split; try reflexivity; lia.
  - intros tr. subst tr.
    rewrite (dispatch_run cfgClient w w1 res Hq).
    cbn [fst] in users.
    pose proof (noticeUsers_spec cfgClient users ∅ 0 w1) as Hl.
    cbv zeta in Hl. fold users.
    destruct Hl as (Hd & Hc & Ha & Hw & Hr & Hp & _).
    specialize (Hc ltac:(lia) ltac:(lia)). rewrite Hc, Z.add_0_l.
    set (t := trace (noticeUsers cfgClient users (∅, 0)) w1) in *.
    assert (Htail : forall l,
      (if 0 <? Z.of_nat (length users)
       then [LogSending (Z.of_nat (length users))] else []) ++ l
      = l \/
      (if 0 <? Z.of_nat (length users)
       then [LogSending (Z.of_nat (length users))] else []) ++ l
      = LogSending (Z.of_nat (length users)) :: l).
    { intros l. destruct (0 <? Z.of_nat (length users)); auto. }
    cbn [app].
    destruct (Htail (t ++ (if 0 <? delivered t then [LogSent (delivered t)] else [])))
      as [-> | ->];
      cbn [recordedAfterDelivery storeWrites delivered reported recorded];
      rewrite storeWrites_app, delivered_app, reported_app, recorded_app,
        (recordedAfterDelivery_app _ _ _ Ha), Hp, length_app;
      destruct (0 <? delivered t) eqn:Hpos;
      cbn [recordedAfterDelivery storeWrites delivered reported recorded app length];
      rewrite ?Z.add_0_r, ?Hpos; repeat split; try reflexivity; lia.
Qed.

Lemma oneURL_insert (data : gmap string string) (url : string) :
  oneURL data -> <["ConsentURL" := url]> data = {["ConsentURL" := url]}.
Proof.
  intros [-> | [url' ->]].
  - apply insert_empty.
  - apply insert_singleton_eq.
Qed.

(** One iteration of the loop is the specified step for its user: the map
    left by the users before holds at most a consent URL, which the insert
    replaces, and the counter does not enter into what is done. *)
Lemma noticeUser_as_specified
  {W : Type} `{Collaborators W}
  (cfgClient : config.ClientAPI) (data : gmap string string) (count : Z)
  (userID : string) (w : W) :
  oneURL data ->
  trace (noticeUser cfgClient (data, count) userID) w
    = fst (specNoticeUser cfgClient userID w)
  /\ world (noticeUser cfgClient (data, count) userID) w
    = snd (specNoticeUser cfgClient userID w)
  /\ oneURL (fst (result (noticeUser cfgClient (data, count) userID) w)).
Proof.
  intros Hdata.
  unfold noticeUser, specNoticeUser, notSender, fullUserID, consentURLFor,
    buildConsentURI.
  go_unfold. cbv beta iota zeta.
  destruct (String.eqb userID _); cbn [negb fst snd]; [auto|].
  rewrite (oneURL_insert _ _ Hdata).
  assert (Hone : forall url : string, oneURL {["ConsentURL" := url]})
    by (intros url; right; eexists; reflexivity).
  destruct (TextTemplates_ExecuteTemplate _ _ w) as [[out [e|]] w1];
    [cbn [fst snd app]; auto|].
  destruct (sendServerNotice _ w1) as [[e|] w2]; [cbn [fst snd app]; auto|].
  destruct (PerformUpdatePolicyVersion _ w2) as [[e|] w3];
    cbn [fst snd app]; auto.
Qed.

Lemma noticeUsers_as_specified
  {W : Type} `{Collaborators W}
  (cfgClient : config.ClientAPI) (users : list string) :
  forall (data : gmap string string) (count : Z) (w : W),
  oneURL data ->
  trace (noticeUsers cfgClient users (data, count)) w
    = fst (specNoticeUsers cfgClient users w)
  /\ world (noticeUsers cfgClient users (data, count)) w
    = snd (specNoticeUsers cfgClient users w).
Proof.
  induction users as [|u users IH]; intros data count w Hdata.
  - split; reflexivity.
  - unfold trace, world. rewrite noticeUsers_cons. cbn [specNoticeUsers].
    destruct (noticeUser_as_specified cfgClient data count u w Hdata)
      as (Ht & Hw & Hd).
    unfold trace, world, result in Ht, Hw, Hd.
    destruct (noticeUser cfgClient (data, count) u w) as [[[data1 count1] w1] t1].
    cbn [fst snd] in Ht, Hw, Hd.
    destruct (specNoticeUser cfgClient u w) as [t1' w1'].
    cbn [fst snd] in Ht, Hw. subst t1' w1'.
    destruct (IH data1 count1 w1 Hd) as [Ht2 Hw2].
    unfold trace, world in Ht2, Hw2.
    destruct (noticeUsers cfgClient users (data1, count1) w1)
      as [[acc2 w2] t2].
    cbn [fst snd] in Ht2, Hw2.
    destruct (specNoticeUsers cfgClient users w1) as [t2' w2'].
    cbn [fst snd] in *. now subst.
Qed.

(** The world a pass leaves after a listing that succeeded is the world its
    loop leaves. *)
Lemma dispatch_world
  {W : Type} `{Collaborators W}
  (cfgClient : config.ClientAPI) (w w1 : W)
  (res : userapi.QueryOutdatedPolicyResponse.t) :
  QueryOutdatedPolicy
    {| userapi.QueryOutdatedPolicyRequest.PolicyVersion :=
         config.Version (config.UserConsentOptions (config.Matrix cfgClient)) |} w
    = (res, None, w1) ->
  world (sendServerNoticeForConsent cfgClient) w
  = world (noticeUsers cfgClient
             (userapi.QueryOutdatedPolicyResponse.OutdatedUsers res) (∅, 0)) w1.
Proof.
  intros Hq.
  unfold sendServerNoticeForConsent. go_unfold. rewrite Hq.
  cbv beta iota zeta.
  destruct (0 <? Z.of_nat _);
    destruct (noticeUsers cfgClient _ (∅, 0) w1) as [[[data c] w2] t];
    cbn [fst snd]; destruct (0 <? c); reflexivity.
Qed.

(** C8. Only a failure of the listing aborts the pass, and then nothing is
    done for any user. After a listing that succeeded the pass is, between
    the listing with its announcement and the report, the specified steps of
    the listed users one after the other: each user gets the whole of its
    step from the world the user before left, whatever failed for that one,
    so that a user whose template renders is delivered to and a user
    delivered to has its update requested, and the failure of a step ends
    the work on its own user only. In particular every user but the notice
    sender is reached, in order; and the loop over a list is the loop over
    its first part, then the user, then the loop over the rest, each from
    where the previous one ended. *)
Theorem dispatch_skips_only_the_failing_user
  {W : Type} `{Collaborators W}
  (cfgClient : config.ClientAPI) (w : W) :
  let query :=
    {| userapi.QueryOutdatedPolicyRequest.PolicyVersion :=
         config.Version (config.UserConsentOptions (config.Matrix cfgClient)) |} in
  match QueryOutdatedPolicy query w with
  | (res, Some e, w1) =>
      run (sendServerNoticeForConsent cfgClient) w
      = (tt, w1,
         [CallQueryOutdatedPolicy query res (Some e);
          LogError e None "unable to fetch users with outdated consent policy"])
  | (res, None, w1) =>
      let users := userapi.QueryOutdatedPolicyResponse.OutdatedUsers res in
      let tr := trace (sendServerNoticeForConsent cfgClient) w in
      tr = CallQueryOutdatedPolicy query res None
             :: (if 0 <? Z.of_nat (length users)
                 then [LogSending (Z.of_nat (length users))] else [])
             ++ fst (specNoticeUsers cfgClient users w1)
             ++ map LogSent (reported tr)
      /\ (length (reported tr) <= 1)%nat
      /\ world (sendServerNoticeForConsent cfgClient) w
         = snd (specNoticeUsers cfgClient users w1)
      /\ noticeURLs tr
         = map (fun u => Some (consentURLFor cfgClient u))
             (List.filter (notSender cfgClient) users)
  end
  /\ forall (before after : list string) (userID : string)
       (acc : gmap string string * Z) (w0 : W),
       run (noticeUsers cfgClient (before ++ userID :: after) acc) w0
       = (let '(acc1, w1, t1) := run (noticeUsers cfgClient before acc) w0 in
          let '(acc2, w2, t2) := run (noticeUser cfgClient acc1 userID) w1 in
          let '(acc3, w3, t3) := run (noticeUsers cfgClient after acc2) w2 in
          (acc3, w3, t1 ++ t2 ++ t3)).
Proof.
  intros query. split.
  - destruct (QueryOutdatedPolicy query w) as [[res [e|]] w1] eqn:Hq.
    + unfold sendServerNoticeForConsent. go_unfold. fold query. rewrite Hq.
      reflexivity.
    + intros users tr.
      pose proof (noticeUsers_spec cfgClient users ∅ 0 w1) as Hl.
      cbv zeta in Hl. destruct Hl as (_ & _ & _ & _ & _ & Hp & Hn).
      destruct (noticeUsers_as_specified cfgClient users ∅ 0 w1
                  (or_introl eq_refl)) as [Hst Hsw].
      assert (Htr : tr
                = [CallQueryOutdatedPolicy query res None]
                  ++ (if 0 <? Z.of_nat (length users)
                      then [LogSending (Z.of_nat (length users))] else [])
                  ++ trace (noticeUsers cfgClient users (∅, 0)) w1
                  ++ (if 0 <? snd (result (noticeUsers cfgClient users (∅, 0)) w1)
                      then [LogSent (snd (result (noticeUsers cfgClient users
                                                    (∅, 0)) w1))]
                      else []))
        by (apply (dispatch_run cfgClient w w1 res Hq)).
      set (announce := if 0 <? Z.of_nat (length users)
                       then [LogSending (Z.of_nat (length users))] else []) in *.
      set (c := snd (result (noticeUsers cfgClient users (∅, 0)) w1)) in *.
      set (t := trace (noticeUsers cfgClient users (∅, 0)) w1) in *.
      assert (Hrep : reported tr = if 0 <? c then [c] else []).
      { rewrite Htr, !reported_app, Hp.
        assert (Ha : reported announce = [])
          by (subst announce; destruct (0 <? _); reflexivity).
        rewrite Ha. destruct (0 <? c); reflexivity. }
      split; [|split; [|split]].
      * rewrite Hrep, <- Hst. rewrite Htr at 1. cbn [app].
        destruct (0 <? c); reflexivity.
      * rewrite Hrep. destruct (0 <? c); cbn [length]; lia.
      * rewrite <- Hsw. apply (dispatch_world cfgClient w w1 res Hq).
      * rewrite Htr, !noticeURLs_app, Hn. cbn [noticeURLs app].
        assert (Ha : noticeURLs announce = [])
          by (subst announce; destruct (0 <? _); reflexivity).
        rewrite Ha. destruct (0 <? c); cbn [noticeURLs app];
          now rewrite ?app_nil_r.
  - intros before after userID acc w0. unfold run.
    rewrite noticeUsers_app.
    destruct (noticeUsers cfgClient before acc w0) as [[acc1 w1] t1].
    rewrite noticeUsers_cons.
    destruct (noticeUser cfgClient acc1 userID w1) as [[acc2 w2] t2].
    destruct (noticeUsers cfgClient after acc2 w2) as [[acc3 w3] t3].
    reflexivity.
Qed.

(** ** The version and the signature *)

(** On POST the signature is checked once the user ID has parsed, over [u]
    and [h] under the form secret; the request is turned down as an invalid
    HMAC exactly when that check does not return true. *)
Lemma post_signature_check
  {W : Type} `{Collaborators W}
  (req : Request) (cfg : config.ClientAPI) (w : W) :
  let secret := config.FormSecret (config.UserConsentOptions (config.Matrix cfg)) in
  let u := FormValue req "u" in
  let h := FormValue req "h" in
  Method req = "POST" ->
  validHMACCalls (trace (consent req cfg) w)
    = (if notNil (snd (SplitID "@" u)) then [] else [CallValidHMAC u h secret])
  /\ (bodies (trace (consent req cfg) w) = ["invalid HMAC provided"]
      <-> notNil (snd (SplitID "@" u)) = false
          /\ notNil (snd (validHMAC u h secret))
             || negb (fst (validHMAC u h secret)) = true).
Proof.
  intros secret u h Hm.
  go_unfold.
  assert (Hne : String.eqb (Method req) "GET" = false)
    by (rewrite Hm; reflexivity).
  rewrite Hne, Hm. cbn [String.eqb Ascii.eqb Bool.eqb].
  cbn [User Version UserHMAC]. fold u h secret.
  destruct (SplitID "@" u) as [[localPart domain] [e|]]; cbn [snd notNil].
  { split; [reflexivity|]. cbn. split; [discriminate|]. intros [? _]. discriminate. }
  destruct (validHMAC u h secret) as [ok err]. cbv beta iota. cbn [fst snd].
  destruct (notNil err || negb ok).
  - destruct (writer_Write "invalid HMAC provided" w) as [[e|] w1];
      split; try reflexivity; cbn; tauto.
  - destruct (PerformUpdatePolicyVersion _ w) as [[e|] w1].
    + destruct (writer_Write "unable to update database" w1) as [[e'|] w2];
        (split; [reflexivity|]); cbn;
        (split; [discriminate | intros [_ ?]; discriminate]).
    + destruct (Templates_ExecuteTemplate _ _ w1) as [[e'|] w2];
        (split; [reflexivity|]); cbn;
        (split; [discriminate | intros [_ ?]; discriminate]).
Qed.

(** C9. The signature covers the identity only. The HMAC put in the link is
    the same under any two versions and the link differs in its [v] parameter
    alone; [validHMAC] returns the same under the two configurations; and a
    POST request is checked, and turned down as an invalid HMAC or not, in
    the same way whatever version it carries. *)
Theorem signature_does_not_cover_version
  {W : Type} `{Collaborators W}
  (cfg : config.ClientAPI) (identity h v1 v2 : string) (w : W) :
  let cfg1 := config.withVersion v1 cfg in
  let cfg2 := config.withVersion v2 cfg in
  let secret1 := config.FormSecret (config.UserConsentOptions (config.Matrix cfg1)) in
  let secret2 := config.FormSecret (config.UserConsentOptions (config.Matrix cfg2)) in
  let tr1 := trace (consent (linkRequest "POST" identity v1 h) cfg1) w in
  let tr2 := trace (consent (linkRequest "POST" identity v2 h) cfg2) w in
  userMAC cfg1 identity = userMAC cfg2 identity
  /\ fst (buildConsentURI cfg1 identity)
     = config.BaseURL (config.UserConsentOptions (config.Matrix cfg))
         +:+ "/_matrix/client/consent?u=" +:+ identity
         +:+ "&h=" +:+ Bytes.to_string (userMAC cfg identity) +:+ "&v=" +:+ v1
  /\ validHMAC identity h secret1 = validHMAC identity h secret2
  /\ validHMACCalls tr1 = validHMACCalls tr2
  /\ (bodies tr1 = ["invalid HMAC provided"]
      <-> bodies tr2 = ["invalid HMAC provided"]).
Proof.
  intros cfg1 cfg2 secret1 secret2 tr1 tr2.
  assert (Hs1 : secret1 = config.FormSecret
                            (config.UserConsentOptions (config.Matrix cfg)))
    by reflexivity.
  assert (Hs2 : secret2 = config.FormSecret
                            (config.UserConsentOptions (config.Matrix cfg)))
    by reflexivity.
  destruct (post_signature_check (linkRequest "POST" identity v1 h) cfg1 w eq_refl)
    as [Hc1 Hb1].
  destruct (post_signature_check (linkRequest "POST" identity v2 h) cfg2 w eq_refl)
    as [Hc2 Hb2].
  fold tr1 in Hc1, Hb1. fold tr2 in Hc2, Hb2.
  cbn [FormValue linkRequest String.eqb Ascii.eqb Bool.eqb] in Hc1, Hb1, Hc2, Hb2.
  fold secret1 in Hc1, Hb1. fold secret2 in Hc2, Hb2.
  rewrite Hs1 in *. rewrite Hs2 in *.
  repeat split; try reflexivity.
  - now rewrite Hc1, Hc2.
  - intros Hb. apply Hb2, Hb1, Hb.
  - intros Hb. apply Hb1, Hb2, Hb.
Qed.

(** ** The theorems at concrete inputs *)

Lemma get_without_link_parameters_is_public_witness :
  let req := linkRequest "GET" "" "" "" in
  let tr := trace (consent req Sample.cfg) (Mem.sound Sample.bobStore) in
  Method req = "GET"
  /\ storeCalls tr = []
  /\ map viewOf (renders tr) = [PublicView].
Proof.
  intros req tr.
  destruct (get_without_link_parameters_is_public
              req Sample.cfg (Mem.sound Sample.bobStore)
              eq_refl (or_introl eq_refl)) as (Hs & Hr & Hv).
  split; [reflexivity|]. split; [exact Hs|].
  fold tr in Hr. rewrite Hr. reflexivity.
Defined.

Lemma get_view_follows_stored_version_witness :
  let req := linkRequest "GET" "@bob:example.org" "2" "zz" in
  let tr := trace (consent req Sample.cfg) (Mem.sound Sample.bobStore) in
  SplitID "@" "@bob:example.org" = ("bob", "example.org", None)
  /\ length (storeCalls tr) = 1%nat
  /\ exists data, renders tr = [data] /\ viewOf data = PromptView.
Proof.
  intros req tr.
  assert (Hne : forall s : string, s <> "" -> s <> "") by auto.
  destruct (get_view_follows_stored_version
              req Sample.cfg (Mem.sound Sample.bobStore) (Mem.sound Sample.bobStore)
              "bob" "example.org"
              {| userapi.QueryPolicyVersionResponse.PolicyVersion := "1" |}
              eq_refl
              ltac:(discriminate) ltac:(discriminate) ltac:(discriminate)
              eq_refl ltac:(vm_compute; reflexivity))
    as (Hs & data & Hr & _ & Hp & _).
  split; [reflexivity|]. fold tr in Hs, Hr. split.
  - rewrite Hs. reflexivity.
  - exists data. split; [exact Hr|]. apply Hp. discriminate.
Defined.

Lemma get_never_verifies_signature_witness :
  let req1 := linkRequest "GET" "@bob:example.org" "2" Sample.bobSignature in
  let req2 := linkRequest "GET" "@bob:example.org" "2" "forged" in
  let tr1 := trace (consent req1 Sample.cfg) (Mem.sound Sample.bobStore) in
  let tr2 := trace (consent req2 Sample.cfg) (Mem.sound Sample.bobStore) in
  validHMAC "@bob:example.org" "forged" "s3cr3t"
    = (false, Some (InvalidByteError "o"))
  /\ validHMACCalls tr2 = []
  /\ map viewOf (renders tr1) = map viewOf (renders tr2).
Proof.
  intros req1 req2 tr1 tr2.
  destruct (get_never_verifies_signature
              req1 req2 Sample.cfg (Mem.sound Sample.bobStore)
              (Mem.sound Sample.bobStore) "bob" "example.org"
              {| userapi.QueryPolicyVersionResponse.PolicyVersion := "1" |}
              eq_refl eq_refl eq_refl eq_refl
              ltac:(discriminate) ltac:(discriminate)
              ltac:(discriminate) ltac:(discriminate)
              eq_refl ltac:(vm_compute; reflexivity))
    as (_ & Hc & _ & _ & _ & Hv).
  split; [vm_compute; reflexivity|]. split; assumption.
Defined.

Lemma post_invalid_signature_is_rejected_witness :
  let req := linkRequest "POST" "@bob:example.org" "2" "00" in
  let w := Mem.sound Sample.bobStore in
  Hex.DecodeString "00" = ([x00], None)
  /\ result (consent req Sample.cfg) w = Some {| Code := 500 |}
  /\ bodies (trace (consent req Sample.cfg) w) = ["invalid HMAC provided"]
  /\ storeCalls (trace (consent req Sample.cfg) w) = [].
Proof.
  intros req w.
  destruct (post_invalid_signature_is_rejected
              req Sample.cfg w "bob" "example.org" eq_refl eq_refl
              ltac:(right; vm_compute; discriminate))
    as (Hrun & _ & Hb & Hs & _).
  split; [vm_compute; reflexivity|].
  split; [|split; assumption].
  unfold result. unfold run in Hrun. rewrite Hrun. reflexivity.
Defined.

Lemma post_valid_signature_writes_then_confirms_witness :
  let req := linkRequest "POST" "@bob:example.org" "2" Sample.bobSignature in
  let w := Mem.sound Sample.bobStore in
  validHMAC "@bob:example.org" Sample.bobSignature "s3cr3t" = (true, None)
  /\ storeWrites (trace (consent req Sample.cfg) w)
     = [{| userapi.UpdatePolicyVersionRequest.PolicyVersion := "2";
           userapi.UpdatePolicyVersionRequest.LocalPart := "bob";
           userapi.UpdatePolicyVersionRequest.ServerNoticeUpdate := false |}]
  /\ length (storeCalls (trace (consent req Sample.cfg) w)) = 1%nat.
Proof.
  intros req w.
  assert (Hv : validHMAC "@bob:example.org" Sample.bobSignature "s3cr3t"
               = (true, None)) by (vm_compute; reflexivity).
  destruct (post_valid_signature_writes_then_confirms
              req Sample.cfg w "bob" "example.org" eq_refl eq_refl Hv)
    as (Hw & Hs & _).
  split; [exact Hv|]. split; assumption.
Defined.

(** C3 (the sentence as stated fails). With a store whose write fails, a
    POST request with a parsable [u] and a valid [h] renders nothing. *)
Lemma post_success_fails_when_write_fails :
  ~ postSuccessAsSpecified
      (linkRequest "POST" "@bob:example.org" "2" Sample.bobSignature)
      Sample.cfg (Sample.updatesFail Sample.bobStore).
Proof.
  intros Hc.
  destruct (Hc "bob" "example.org" eq_refl eq_refl
              ltac:(vm_compute; reflexivity)) as [_ Hr].
  vm_compute in Hr. discriminate Hr.
Qed.

Lemma dispatch_reports_deliveries_and_records_after_each_witness :
  let w := Sample.deliveryFails "@u2:example.org" Sample.threeUsers in
  let tr := trace (sendServerNoticeForConsent Sample.cfg) w in
  Z.of_nat (length (Mem.outdated "2" w)) < 2 ^ 63
  /\ recordedAfterDelivery Sample.cfg tr = true
  /\ reported tr = (if 0 <? delivered tr then [delivered tr] else []).
Proof.
  intros w tr.
  assert (Hlen : Z.of_nat (length (Mem.outdated "2" w)) < 2 ^ 63)
    by (vm_compute; reflexivity).
  pose proof (dispatch_reports_deliveries_and_records_after_each
                Sample.cfg w Hlen) as (Ha & _ & Hr & _).
  split; [exact Hlen|]. split; assumption.
Defined.

(** C5 (the sentence as stated fails). One outdated user, the notice is
    delivered and the store update fails: the pass reports one user, and no
    user was both notified and recorded. *)
Lemma dispatch_count_is_not_recorded_users :
  ~ dispatchCountAsSpecified Sample.cfg (Sample.updatesFail Sample.bobStore).
Proof.
  intros Hc. specialize (Hc 1). vm_compute in Hc.
  discriminate (Hc (or_introl eq_refl)).
Qed.

(** The pass of the specification's example on the reference store: three
    outdated users, the delivery to the second fails. Two notices are
    delivered and two are reported; the two updates are requested under the
    full user IDs, so that on this store, keyed as the listing returns its
    users, all three are still outdated afterwards. *)
Example dispatch_pass_with_one_failed_delivery :
  let w := Sample.deliveryFails "@u2:example.org" Sample.threeUsers in
  let tr := trace (sendServerNoticeForConsent Sample.cfg) w in
  let w' := world (sendServerNoticeForConsent Sample.cfg) w in
  Mem.outdated "2" w = ["u3"; "u1"; "u2"]
  /\ delivered tr = 2 /\ reported tr = [2] /\ recorded tr = 2
  /\ map userapi.UpdatePolicyVersionRequest.LocalPart (storeWrites tr)
     = ["@u3:example.org"; "@u1:example.org"]
  /\ Mem.outdated "2" w' = ["u3"; "u1"; "u2"].
Proof. vm_compute. repeat split; reflexivity. Qed.

(** The pass goes on after a failure: on the reference store with three
    outdated users the delivery to the first one listed fails; the two
    listed after it are delivered to and have their update requested. *)
Example dispatch_continues_after_a_failed_delivery :
  let w := Sample.deliveryFails "@u3:example.org" Sample.threeUsers in
  let tr := trace (sendServerNoticeForConsent Sample.cfg) w in
  Mem.outdated "2" w = ["u3"; "u1"; "u2"]
  /\ map sendServerNoticeRequest.UserID (notices tr)
     = ["@u3:example.org"; "@u1:example.org"; "@u2:example.org"]
  /\ deliveredTo tr = ["@u1:example.org"; "@u2:example.org"]
  /\ map userapi.UpdatePolicyVersionRequest.LocalPart (storeWrites tr)
     = ["@u1:example.org"; "@u2:example.org"]
  /\ reported tr = [2].
Proof. vm_compute. repeat split; reflexivity. Qed.

(** The listing fails: one call, one log line, nothing else. *)
Example dispatch_aborts_when_listing_fails :
  trace (sendServerNoticeForConsent Sample.cfg) (Sample.listingFails Sample.threeUsers)
  = [CallQueryOutdatedPolicy
       {| userapi.QueryOutdatedPolicyRequest.PolicyVersion := "2" |}
       {| userapi.QueryOutdatedPolicyResponse.OutdatedUsers := [] |}
       (Some (errorString "list"));
     LogError (errorString "list") None
       "unable to fetch users with outdated consent policy"].
Proof. vm_compute. reflexivity. Qed.

(** The notice sender, though outdated, is never sent a notice. *)
Example sender_is_not_noticed :
  let store : gmap string (string * bool) :=
    {["_server" := ("1", false); "u1" := ("1", false)]} in
  map sendServerNoticeRequest.UserID
    (Mem.outbox (world (sendServerNoticeForConsent Sample.cfg) (Mem.sound store)))
  = ["@u1:example.org"].
Proof. vm_compute. reflexivity. Qed.

(** The GET and POST scenario of the specification on the reference store:
    bob accepted version 1; a POST with a valid signature and [v = 2] stores
    2 for bob, and the GET that follows renders the confirmed view. *)
Example bob_accepts_then_sees_confirmation :
  let post := linkRequest "POST" "@bob:example.org" "2" Sample.bobSignature in
  let get := linkRequest "GET" "@bob:example.org" "2" Sample.bobSignature in
  let w1 := world (consent post Sample.cfg) (Mem.sound Sample.bobStore) in
  Mem.acceptedVersion w1 "bob" = "2"
  /\ map viewOf (renders (trace (consent get Sample.cfg) w1)) = [ConfirmedView].
Proof. vm_compute. split; reflexivity. Qed.

(** * Further properties of the code *)

(** ** What [validHMAC] accepts *)

Lemma fromHexChar_lower (p : byte) :
  Hex.fromHexChar (lowerByte p) = Hex.fromHexChar p.
Proof. destruct p; vm_compute; reflexivity. Qed.

Lemma lowerByte_idem (p : byte) : lowerByte (lowerByte p) = lowerByte p.
Proof. destruct p; vm_compute; reflexivity. Qed.

(** A hex digit in lower case is the digit of the table. *)
Lemma fromHexChar_hextable_check (p : byte) :
  match Hex.fromHexChar p with
  | Some a =>
      if Byte.eqb (lowerByte p) p
      then (0 <=? a) && (a <? 16) && Byte.eqb (Hex.hextable a) p
      else true
  | None => true
  end = true.
Proof. destruct p; vm_compute; reflexivity. Qed.

Lemma fromHexChar_hextable (p : byte) (a : Z) :
  Hex.fromHexChar p = Some a -> lowerByte p = p ->
  0 <= a < 16 /\ Hex.hextable a = p.
Proof.
  intros E L. pose proof (fromHexChar_hextable_check p) as C.
  rewrite E, (Byte.byte_dec_lb L) in C.
  apply andb_prop in C. destruct C as [C Hp]. apply andb_prop in C.
  destruct C as [Ha0 Ha1]. apply Byte.byte_dec_bl in Hp.
  split; [lia | exact Hp].
Qed.

Lemma nibbles_of_byte (a b : Z) :
  0 <= a < 16 -> 0 <= b < 16 ->
  let v := Bytes.of_Z (Z.lor (Z.shiftl a 4) b) in
  Z.shiftr (Bytes.to_Z v) 4 = a /\ Z.land (Bytes.to_Z v) 15 = b.
Proof.
  intros Ha Hb.
  assert (Ea : a = 0 \/ a = 1 \/ a = 2 \/ a = 3 \/ a = 4 \/ a = 5 \/ a = 6
               \/ a = 7 \/ a = 8 \/ a = 9 \/ a = 10 \/ a = 11 \/ a = 12
               \/ a = 13 \/ a = 14 \/ a = 15) by lia.
  assert (Eb : b = 0 \/ b = 1 \/ b = 2 \/ b = 3 \/ b = 4 \/ b = 5 \/ b = 6
               \/ b = 7 \/ b = 8 \/ b = 9 \/ b = 10 \/ b = 11 \/ b = 12
               \/ b = 13 \/ b = 14 \/ b = 15) by lia.
  repeat (destruct Ea as [-> | Ea]); try subst a;
    repeat (destruct Eb as [-> | Eb]); try subst b;
    vm_compute; split; reflexivity.
Qed.

(** Decoding does not look at the case of the letters. *)
Lemma Decode_lower_le (n : nat) (src d : list byte) :
  (length src <= n)%nat ->
  Hex.Decode src = (d, None) <-> Hex.Decode (map lowerByte src) = (d, None).
Proof.
  revert src d. induction n as [|n IH]; intros src d Hn.
  - destruct src; simpl in *; [tauto | lia].
  - destruct src as [|p [|q rest]]; cbn [map Hex.Decode]; [tauto | |].
    + rewrite fromHexChar_lower. destruct (Hex.fromHexChar p); split; discriminate.
    + rewrite !fromHexChar_lower.
      destruct (Hex.fromHexChar p); [|split; discriminate].
      destruct (Hex.fromHexChar q); [|split; discriminate].
      simpl in Hn.
      destruct (Hex.Decode rest) as [d1 e1] eqn:E1;
        destruct (Hex.Decode (map lowerByte rest)) as [d2 e2] eqn:E2.
      split; intros E; injection E as <- ->.
      * apply IH in E1; [|lia]. rewrite E1 in E2. now injection E2 as <- <-.
      * apply IH in E2; [|lia]. rewrite E2 in E1. now injection E1 as <- <-.
Qed.

(** A string without capitals decodes to [d] exactly when it is the encoding
    of [d]. *)
Lemma Decode_is_Encode_le (n : nat) (src d : list byte) :
  (length src <= n)%nat -> map lowerByte src = src ->
  Hex.Decode src = (d, None) -> src = Hex.Encode d.
Proof.
  revert src d. induction n as [|n IH]; intros src d Hn Hl E.
  - destruct src; simpl in *; [|lia]. now injection E as <-.
  - destruct src as [|p [|q rest]]; cbn [map Hex.Decode] in *.
    + now injection E as <-.
    + destruct (Hex.fromHexChar p); discriminate.
    + injection Hl as Hp Hq Hrest.
      destruct (Hex.fromHexChar p) as [a|] eqn:Ep; [|discriminate].
      destruct (Hex.fromHexChar q) as [b|] eqn:Eq; [|discriminate].
      destruct (Hex.Decode rest) as [d1 e1] eqn:E1.
      injection E as <- ->.
      destruct (fromHexChar_hextable p a Ep Hp) as [Ha Hpa].
      destruct (fromHexChar_hextable q b Eq Hq) as [Hb Hqb].
      destruct (nibbles_of_byte a b Ha Hb) as [Hhi Hlo].
      cbn [Hex.Encode]. rewrite Hhi, Hlo, Hpa, Hqb.
      simpl in Hn. f_equal. f_equal. apply IH; auto. lia.
Qed.

Lemma map_lowerByte_idem (l : list byte) :
  map lowerByte (map lowerByte l) = map lowerByte l.
Proof.
  induction l as [|p l IH]; cbn [map]; [reflexivity|].
  now rewrite lowerByte_idem, IH.
Qed.

Lemma to_string_inj (a b : list byte) :
  Bytes.to_string a = Bytes.to_string b -> a = b.
Proof.
  intros E. rewrite <- (of_string_to_string a), <- (of_string_to_string b).
  now rewrite E.
Qed.

(** X1. [validHMAC] returns true, and then no error, exactly for the strings
    that are, capitals aside, the hex encoding of the HMAC-SHA256 of the user
    name under the secret; such a string has 64 characters. *)
Theorem validHMAC_accepts_the_hex_digest_in_any_case
  (username userHMAC secret : string) :
  let mac := HMAC.Sum (Bytes.of_string secret) (Bytes.of_string username) in
  (fst (validHMAC username userHMAC secret) = true
   <-> lowerHex userHMAC = Hex.EncodeToString mac)
  /\ (fst (validHMAC username userHMAC secret) = true ->
      snd (validHMAC username userHMAC secret) = None
      /\ String.length userHMAC = 64%nat).
Proof.
  intros mac.
  assert (Hiff : fst (validHMAC username userHMAC secret) = true
                 <-> lowerHex userHMAC = Hex.EncodeToString mac).
  { unfold validHMAC, Hex.DecodeString, lowerHex, Hex.EncodeToString. fold mac.
    split.
    - destruct (Hex.Decode (Bytes.of_string userHMAC)) as [d [e|]] eqn:E;
        cbn [fst]; [discriminate|].
      intros Eq. apply Equal_spec in Eq. subst d.
      apply (Decode_lower_le (length (Bytes.of_string userHMAC))) in E; [|lia].
      f_equal.
      apply (Decode_is_Encode_le (length (map lowerByte (Bytes.of_string userHMAC))));
        auto using map_lowerByte_idem.
    - intros E. apply to_string_inj in E.
      assert (D : Hex.Decode (Bytes.of_string userHMAC) = (mac, None)).
      { apply (Decode_lower_le (length (Bytes.of_string userHMAC))); [lia|].
        rewrite E. apply Decode_Encode. }
      rewrite D. cbn [fst]. now apply Equal_spec. }
  split; [exact Hiff|].
  intros Ht. split.
  - unfold validHMAC in *.
    destruct (Hex.DecodeString userHMAC) as [d [e|]]; [discriminate Ht | reflexivity].
  - apply Hiff in Ht. apply (f_equal String.length) in Ht.
    unfold lowerHex, Hex.EncodeToString in Ht.
    rewrite !strlen_to_string, length_map in Ht.
    assert (Henc : forall l, length (Hex.Encode l) = (2 * length l)%nat).
    { induction l as [|v l IH]; simpl; [reflexivity | rewrite IH; lia]. }
    rewrite Henc in Ht. unfold mac in Ht. rewrite HMAC_Sum_length in Ht.
    transitivity (length (Bytes.of_string userHMAC)); [|exact Ht].
    unfold Bytes.of_string, String.list_byte_of_string.
    clear. induction userHMAC as [|c s IH]; simpl; [reflexivity | now rewrite IH].
Qed.

Lemma Decode_odd_le (n : nat) (src : list byte) :
  (length src <= n)%nat -> Nat.odd (length src) = true ->
  snd (Hex.Decode src) <> None.
Proof.
  revert src. induction n as [|n IH]; intros src Hn Hodd.
  - destruct src; simpl in *; [discriminate | lia].
  - destruct src as [|p [|q rest]]; cbn [Hex.Decode].
    + discriminate.
    + destruct (Hex.fromHexChar p); discriminate.
    + destruct (Hex.fromHexChar p); [|discriminate].
      destruct (Hex.fromHexChar q); [|discriminate].
      specialize (IH rest). simpl in Hn.
      change (length (p :: q :: rest)) with (S (S (length rest))) in Hodd.
      rewrite Nat.odd_succ_succ in Hodd.
      destruct (Hex.Decode rest) as [d e]. cbn [snd] in *. apply IH; [lia | exact Hodd].
Qed.

Lemma strlen_of_string (s : string) :
  length (Bytes.of_string s) = String.length s.
Proof.
  unfold Bytes.of_string, String.list_byte_of_string.
  induction s as [|c s IH]; simpl; [reflexivity | now rewrite IH].
Qed.

(** X2. What [validHMAC] does with a malformed signature: the empty string is
    turned down without an error; a string of odd length is an error; and an
    error always comes with false. *)
Theorem validHMAC_rejects_malformed_signatures (username secret : string) :
  validHMAC username "" secret = (false, None)
  /\ (forall userHMAC : string,
        Nat.odd (String.length userHMAC) = true ->
        fst (validHMAC username userHMAC secret) = false
        /\ snd (validHMAC username userHMAC secret) <> None)
  /\ (forall userHMAC : string,
        snd (validHMAC username userHMAC secret) <> None ->
        fst (validHMAC username userHMAC secret) = false).
Proof.
  split; [|split].
  - unfold validHMAC, Hex.DecodeString. cbn [Bytes.of_string Hex.Decode].
    change (Hex.Decode (Bytes.of_string "")) with (@nil byte, @None error).
    cbv beta iota. f_equal.
    unfold HMAC.Equal, HMAC.ConstantTimeCompare.
    rewrite HMAC_Sum_length. reflexivity.
  - intros userHMAC Hodd.
    pose proof (Decode_odd_le (length (Bytes.of_string userHMAC))
                  (Bytes.of_string userHMAC) ltac:(lia)) as Hd.
    rewrite strlen_of_string in Hd. specialize (Hd Hodd).
    unfold validHMAC, Hex.DecodeString.
    destruct (Hex.Decode (Bytes.of_string userHMAC)) as [d [e|]]; cbn [fst snd] in *.
    + split; [reflexivity | discriminate].
    + congruence.
  - intros userHMAC. unfold validHMAC.
    destruct (Hex.DecodeString userHMAC) as [d [e|]]; cbn [fst snd]; congruence.
Qed.

(** ** The request handler on its other paths *)

(** The parameters of the link as the handler reads them. *)
Ltac consent_start :=
  go_unfold; unfold setPublicVersion, setHasConsented;
  cbn [User Version UserHMAC PublicVersion HasConsented].

(** All the ways through the GET branch. *)
Ltac get_paths req w finish :=
  destruct (String.eqb (FormValue req "u") "" || String.eqb (FormValue req "h") ""
            || String.eqb (FormValue req "v") "") eqn:?; cbn [negb];
  [ destruct (Templates_ExecuteTemplate _ _ w) as [[?|] ?]; finish
  | destruct (SplitID "@" (FormValue req "u")) as [[? ?] [?|]] eqn:?; [finish|];
    let w1 := fresh "w" in
    destruct (QueryPolicyVersion _ w) as [[? [?|]] w1]; [finish|];
    destruct (Templates_ExecuteTemplate _ _ w1) as [[?|] ?]; finish ].

(** All the ways through the POST branch. *)
Ltac post_paths req w finish :=
  destruct (SplitID "@" (FormValue req "u")) as [[? ?] [?|]] eqn:?; [finish|];
  destruct (validHMAC (FormValue req "u") (FormValue req "h") _) as [? ?] eqn:?;
  cbv beta iota;
  match goal with
  | |- context [notNil ?err || negb ?ok] => destruct (notNil err || negb ok) eqn:?
  end;
  [ destruct (writer_Write "invalid HMAC provided" w) as [[?|] ?]; finish
  | let w1 := fresh "w" in
    destruct (PerformUpdatePolicyVersion _ w) as [[?|] w1];
    [ destruct (writer_Write "unable to update database" w1) as [[?|] ?]; finish
    | destruct (Templates_ExecuteTemplate _ _ w1) as [[?|] ?]; finish ] ].

(** All the ways through the handler. *)
Ltac consent_paths req w finish :=
  consent_start;
  destruct (String.eqb (Method req) "GET") eqn:?;
  [ get_paths req w finish
  | destruct (String.eqb (Method req) "POST") eqn:?;
    [ post_paths req w finish | finish ] ].

Ltac trace_facts :=
  cbn [storeCalls List.filter isStoreCall storeWrites renders bodies
       validHMACCalls isValidHMACCall templateCalls failedCalls loggedErrors
       notices textCalls app length fst snd].

(** X3. A request that is neither GET nor POST is answered with status 200
    and nothing else happens: no collaborator is called, nothing is logged
    and the world is left as it was. *)
Theorem other_methods_do_nothing
  {W : Type} `{Collaborators W}
  (req : Request) (cfg : config.ClientAPI) (w : W) :
  Method req <> "GET" -> Method req <> "POST" ->
  run (consent req cfg) w = (Some {| Code := 200 |}, w, []).
Proof.
  intros Hg Hp. apply String.eqb_neq in Hg, Hp.
  go_unfold. rewrite Hg, Hp. reflexivity.
Qed.

(** X4. A GET request with the three parameters whose [u] does not parse is
    answered with the internal error; the failure is logged, the store is not
    called, nothing is rendered and the world is left as it was. *)
Theorem get_unparsable_user_is_internal_error
  {W : Type} `{Collaborators W}
  (req : Request) (cfg : config.ClientAPI) (w : W)
  (localPart domain : string) (e : error) :
  Method req = "GET" ->
  FormValue req "u" <> "" -> FormValue req "v" <> "" -> FormValue req "h" <> "" ->
  SplitID "@" (FormValue req "u") = (localPart, domain, Some e) ->
  run (consent req cfg) w
  = (Some InternalServerError, w,
     [LogError e None "unable to print consent template"]).
Proof.
  intros Hm Hu Hv Hh Hsplit. consent_start.
  rewrite Hm. cbn [String.eqb Ascii.eqb Bool.eqb].
  rewrite (public_flag_false _ _ _ Hu Hv Hh). cbn [negb].
  rewrite Hsplit. reflexivity.
Qed.

(** X5. A GET request with the three parameters and a parsable [u] whose
    store read fails is answered with the internal error: the one store call
    is that read, the failure is logged and nothing is rendered, so a store
    error never shows as "has not consented". *)
Theorem get_store_failure_is_internal_error
  {W : Type} `{Collaborators W}
  (req : Request) (cfg : config.ClientAPI) (w w1 : W)
  (localPart domain : string) (res : userapi.QueryPolicyVersionResponse.t)
  (e : error) :
  Method req = "GET" ->
  FormValue req "u" <> "" -> FormValue req "v" <> "" -> FormValue req "h" <> "" ->
  SplitID "@" (FormValue req "u") = (localPart, domain, None) ->
  QueryPolicyVersion
    {| userapi.QueryPolicyVersionRequest.LocalPart := localPart |} w
    = (res, Some e, w1) ->
  run (consent req cfg) w
  = (Some InternalServerError, w1,
     [CallQueryPolicyVersion
        {| userapi.QueryPolicyVersionRequest.LocalPart := localPart |} res (Some e);
      LogError e None "unable to print consent template"]).
Proof.
  intros Hm Hu Hv Hh Hsplit Hq. consent_start.
  rewrite Hm. cbn [String.eqb Ascii.eqb Bool.eqb].
  rewrite (public_flag_false _ _ _ Hu Hv Hh). cbn [negb].
  rewrite Hsplit, Hq. reflexivity.
Qed.

(** X6. Whatever its parameters and whatever fails, a GET request never
    writes to the store, never writes a body of its own and never checks the
    signature; it answers nil exactly when it executed the template (once,
    and also when that execution failed) and the internal error exactly when
    it rendered nothing. *)
Theorem get_is_read_only
  {W : Type} `{Collaborators W}
  (req : Request) (cfg : config.ClientAPI) (w : W) :
  Method req = "GET" ->
  let tr := trace (consent req cfg) w in
  storeWrites tr = [] /\ bodies tr = [] /\ validHMACCalls tr = []
  /\ (result (consent req cfg) w = None /\ length (renders tr) = 1%nat
      \/ result (consent req cfg) w = Some InternalServerError /\ renders tr = []).
Proof.
  intros Hm tr. subst tr. consent_start.
  rewrite Hm. cbn [String.eqb Ascii.eqb Bool.eqb].
  get_paths req w ltac:(trace_facts; auto 10).
Qed.

(** X7. A POST request whose [u] does not parse, an empty [u] included, is
    answered with the internal error before the signature is looked at: the
    failure is logged, no collaborator is called and the world is left as it
    was. *)
Theorem post_unparsable_user_is_internal_error
  {W : Type} `{Collaborators W}
  (req : Request) (cfg : config.ClientAPI) (w : W) :
  Method req = "POST" ->
  (forall (localPart domain : string) (e : error),
     SplitID "@" (FormValue req "u") = (localPart, domain, Some e) ->
     run (consent req cfg) w
     = (Some InternalServerError, w, [LogError e None "unable to split username"]))
  /\ (FormValue req "u" = "" ->
      exists e : error,
        run (consent req cfg) w
        = (Some InternalServerError, w, [LogError e None "unable to split username"])).
Proof.
  intros Hm.
  assert (Hne : String.eqb (Method req) "GET" = false) by (rewrite Hm; reflexivity).
  split.
  - intros localPart domain e Hsplit. consent_start.
    rewrite Hne, Hm. cbn [String.eqb Ascii.eqb Bool.eqb].
    rewrite Hsplit. reflexivity.
  - intros Hu. eexists. consent_start.
    rewrite Hne, Hm, Hu. reflexivity.
Qed.

(** X8. A POST request that passed the signature check and whose store write
    succeeded: the template is executed next on the world the write left, and
    the answer is nil when it succeeds; when it fails the failure is logged
    and the answer is the internal error, though the write has been made and
    stays. *)
Theorem post_accepted_write_is_kept
  {W : Type} `{Collaborators W}
  (req : Request) (cfg : config.ClientAPI) (w w1 : W) (localPart domain : string) :
  let consentCfg := config.UserConsentOptions (config.Matrix cfg) in
  let u := FormValue req "u" in
  let v := FormValue req "v" in
  let h := FormValue req "h" in
  let update :=
    {| userapi.UpdatePolicyVersionRequest.PolicyVersion := v;
       userapi.UpdatePolicyVersionRequest.LocalPart := localPart;
       userapi.UpdatePolicyVersionRequest.ServerNoticeUpdate := false |} in
  let data :=
    {| User := u; Version := v; UserHMAC := h;
       HasConsented := true; PublicVersion := false |} in
  let name := config.Version consentCfg +:+ ".gohtml" in
  Method req = "POST" ->
  SplitID "@" u = (localPart, domain, None) ->
  validHMAC u h (config.FormSecret consentCfg) = (true, None) ->
  PerformUpdatePolicyVersion update w = (None, w1) ->
  run (consent req cfg) w
  = match Templates_ExecuteTemplate name data w1 with
    | (None, w2) =>
        (None, w2,
         [CallValidHMAC u h (config.FormSecret consentCfg);
          CallPerformUpdatePolicyVersion update None;
          CallTemplates name data None])
    | (Some e, w2) =>
        (Some InternalServerError, w2,
         [CallValidHMAC u h (config.FormSecret consentCfg);
          CallPerformUpdatePolicyVersion update None;
          CallTemplates name data (Some e);
          LogError e None "unable to print consent template"])
    end.
Proof.
  intros consentCfg u v h update data name Hm Hsplit Hvalid Hupd.
  assert (Hne : String.eqb (Method req) "GET" = false) by (rewrite Hm; reflexivity).
  consent_start. rewrite Hne, Hm. cbn [String.eqb Ascii.eqb Bool.eqb].
  fold consentCfg u v h. rewrite Hsplit, Hvalid. cbv beta iota.
  cbn [notNil negb orb]. fold update. rewrite Hupd. fold data name.
  destruct (Templates_ExecuteTemplate name data w1) as [[e|] w2]; reflexivity.
Qed.

(** X9. A POST request that passed the signature check and whose store write
    fails is answered with the body "unable to update database" and the
    internal error; nothing is rendered, and a failure to write that body is
    logged. *)
Theorem post_write_failure_is_reported
  {W : Type} `{Collaborators W}
  (req : Request) (cfg : config.ClientAPI) (w w1 : W) (localPart domain : string)
  (e : error) :
  let consentCfg := config.UserConsentOptions (config.Matrix cfg) in
  let u := FormValue req "u" in
  let v := FormValue req "v" in
  let h := FormValue req "h" in
  let update :=
    {| userapi.UpdatePolicyVersionRequest.PolicyVersion := v;
       userapi.UpdatePolicyVersionRequest.LocalPart := localPart;
       userapi.UpdatePolicyVersionRequest.ServerNoticeUpdate := false |} in
  Method req = "POST" ->
  SplitID "@" u = (localPart, domain, None) ->
  validHMAC u h (config.FormSecret consentCfg) = (true, None) ->
  PerformUpdatePolicyVersion update w = (Some e, w1) ->
  run (consent req cfg) w
  = (Some InternalServerError,
     snd (writer_Write "unable to update database" w1),
     [CallValidHMAC u h (config.FormSecret consentCfg);
      CallPerformUpdatePolicyVersion update (Some e);
      CallWrite "unable to update database"
        (fst (writer_Write "unable to update database" w1))]
     ++ match fst (writer_Write "unable to update database" w1) with
        | Some e' => [LogError e' None "unable to write to database"]
        | None => []
        end).
Proof.
  intros consentCfg u v h update Hm Hsplit Hvalid Hupd.
  assert (Hne : String.eqb (Method req) "GET" = false) by (rewrite Hm; reflexivity).
  consent_start. rewrite Hne, Hm. cbn [String.eqb Ascii.eqb Bool.eqb].
  fold consentCfg u v h. rewrite Hsplit, Hvalid. cbv beta iota.
  cbn [notNil negb orb]. fold update. rewrite Hupd.
  destruct (writer_Write "unable to update database" w1) as [[e'|] w2]; reflexivity.
Qed.

(** X10. Whatever the request and whatever fails, one call of the handler
    makes at most one store call, executes at most one template and writes
    at most one body of its own; it never lists the outdated users, sends no
    notice and executes no text template; and it answers nil, the internal
    error or, for the other methods only, status 200. *)
Theorem consent_does_at_most_one_of_each
  {W : Type} `{Collaborators W}
  (req : Request) (cfg : config.ClientAPI) (w : W) :
  let tr := trace (consent req cfg) w in
  let response := result (consent req cfg) w in
  (length (storeCalls tr) <= 1)%nat
  /\ (length (renders tr) <= 1)%nat
  /\ (length (bodies tr) <= 1)%nat
  /\ notices tr = [] /\ textCalls tr = []
  /\ (response = None \/ response = Some InternalServerError
      \/ response = Some {| Code := 200 |}
         /\ Method req <> "GET" /\ Method req <> "POST").
Proof.
  intros tr response. subst tr response.
  consent_paths req w
    ltac:(trace_facts; repeat split; auto;
          solve [right; right; split;
                 [reflexivity | split; apply String.eqb_neq; assumption]]).
Qed.

(** X11. Every page the handler renders is the template of the configured
    policy version, never of the version the request names, and its data
    repeat the three parameters of the request as they came. *)
Theorem rendered_page_echoes_the_request
  {W : Type} `{Collaborators W}
  (req : Request) (cfg : config.ClientAPI) (w : W) :
  Forall (fun call : string * constentTemplateData =>
            fst call
            = config.Version (config.UserConsentOptions (config.Matrix cfg))
                +:+ ".gohtml"
            /\ User (snd call) = FormValue req "u"
            /\ Version (snd call) = FormValue req "v"
            /\ UserHMAC (snd call) = FormValue req "h")
         (templateCalls (trace (consent req cfg) w)).
Proof.
  consent_paths req w
    ltac:(trace_facts; repeat constructor).
Qed.

(** ** The dispatcher, user by user *)

Ltac proj_app :=
  let a := fresh "a" in let e := fresh "e" in let IH := fresh "IH" in
  intros a; induction a as [|e a IH]; intros; [reflexivity|];
  destruct e as [? ? [?|]|? [?|]|? ? [?|]|? ? [?|]|? [?|]|? ? ? [?|]|? [?|]| | | |];
  cbn; rewrite ?IH; reflexivity.

Lemma notices_app : forall a b, notices (a ++ b) = notices a ++ notices b.
Proof. proj_app. Qed.

Lemma deliveredTo_app : forall a b, deliveredTo (a ++ b) = deliveredTo a ++ deliveredTo b.
Proof. proj_app. Qed.

Lemma failedCalls_app : forall a b, failedCalls (a ++ b) = failedCalls a ++ failedCalls b.
Proof. proj_app. Qed.

Lemma loggedErrors_app : forall a b, loggedErrors (a ++ b) = loggedErrors a ++ loggedErrors b.
Proof. proj_app. Qed.

Lemma textCalls_app : forall a b, textCalls (a ++ b) = textCalls a ++ textCalls b.
Proof. proj_app. Qed.

Lemma templateCalls_app :
  forall a b, templateCalls (a ++ b) = templateCalls a ++ templateCalls b.
Proof. proj_app. Qed.

Lemma bodies_app : forall a b, bodies (a ++ b) = bodies a ++ bodies b.
Proof. proj_app. Qed.

Lemma storeCalls_app : forall a b, storeCalls (a ++ b) = storeCalls a ++ storeCalls b.
Proof. intros a b. apply List.filter_app. Qed.

Lemma validHMACCalls_app :
  forall a b, validHMACCalls (a ++ b) = validHMACCalls a ++ validHMACCalls b.
Proof. intros a b. apply List.filter_app. Qed.

Lemma passFacts_app (a b : list Event) :
  passFacts a -> passFacts b -> passFacts (a ++ b).
Proof.
  unfold passFacts. intros (A1 & A2 & A3 & A4 & A5 & A6) (B1 & B2 & B3 & B4 & B5 & B6).
  rewrite storeWrites_app, deliveredTo_app, loggedErrors_app, failedCalls_app,
    templateCalls_app, bodies_app, validHMACCalls_app, !map_app.
  rewrite A1, A2, A4, A5, A6, B1, B2, B4, B5, B6.
  repeat split; try reflexivity. apply Forall_app; auto.
Qed.

Ltac step_facts :=
  cbn [fst snd storeWrites deliveredTo loggedErrors failedCalls templateCalls
       bodies validHMACCalls notices textCalls storeCalls List.filter
       isStoreCall isValidHMACCall app map length
       userapi.UpdatePolicyVersionRequest.LocalPart
       sendServerNoticeRequest.UserID sendServerNoticeRequest.Content
       sendServerNoticeRequest.MsgType];
  repeat split; auto;
  solve [repeat constructor; try discriminate; reflexivity].

Lemma noticeUser_more
  {W : Type} `{Collaborators W}
  (cfgClient : config.ClientAPI) (data : gmap string string) (count : Z)
  (userID : string) (w : W) :
  oneURL data ->
  let tr := trace (noticeUser cfgClient (data, count) userID) w in
  let data' := fst (result (noticeUser cfgClient (data, count) userID) w) in
  oneURL data'
  /\ passFacts tr
  /\ Forall (noticeFor cfgClient userID) (notices tr)
  /\ Forall (fun id => id = fullUserID cfgClient userID) (deliveredTo tr)
  /\ length (storeCalls tr) = length (storeWrites tr)
  /\ textCalls tr
     = (if notSender cfgClient userID
        then [("serverNoticeTemplate",
               {["ConsentURL" := consentURLFor cfgClient userID]})]
        else []).
Proof.
  intros Hdata.
  unfold noticeUser, passFacts, noticeFor, fullUserID, notSender, consentURLFor,
    buildConsentURI.
  go_unfold. cbv beta iota zeta.
  destruct (String.eqb userID _) eqn:Hs; cbn [negb fst snd].
  { cbn. repeat split; auto. }
  rewrite (oneURL_insert _ _ Hdata).
  assert (Hone : forall url : string, oneURL {["ConsentURL" := url]})
    by (intros url; right; eexists; reflexivity).
  destruct (TextTemplates_ExecuteTemplate _ _ w) as [[out [e|]] w1];
    [step_facts|].
  destruct (sendServerNotice _ w1) as [[e|] w2]; [step_facts|].
  destruct (PerformUpdatePolicyVersion _ w2) as [[e|] w3]; step_facts.
Qed.

Lemma noticeUsers_more
  {W : Type} `{Collaborators W}
  (cfgClient : config.ClientAPI) (users : list string) :
  forall (data : gmap string string) (count : Z) (w : W),
  oneURL data ->
  let tr := trace (noticeUsers cfgClient users (data, count)) w in
  let data' := fst (result (noticeUsers cfgClient users (data, count)) w) in
  oneURL data'
  /\ passFacts tr
  /\ Forall (fun req => exists u, In u users /\ noticeFor cfgClient u req) (notices tr)
  /\ Forall (fun id => exists u, In u users /\ id = fullUserID cfgClient u)
            (deliveredTo tr)
  /\ length (storeCalls tr) = length (storeWrites tr)
  /\ textCalls tr
     = map (fun u => ("serverNoticeTemplate",
                      {["ConsentURL" := consentURLFor cfgClient u]}))
           (List.filter (notSender cfgClient) users).
Proof.
  induction users as [|u users IH]; intros data count w Hdata.
  - cbn. unfold passFacts, oneURL in *. cbn. repeat split; auto.
  - unfold trace, result. rewrite noticeUsers_cons.
    pose proof (noticeUser_more cfgClient data count u w Hdata) as Hu.
    unfold trace, result in Hu.
    destruct (noticeUser cfgClient (data, count) u w) as [[[data1 count1] w1] t1].
    cbn [fst snd] in Hu. destruct Hu as (Hd1 & Hp1 & Hn1 & Hi1 & Hs1 & Ht1).
    specialize (IH data1 count1 w1 Hd1). unfold trace, result in IH.
    destruct (noticeUsers cfgClient users (data1, count1) w1)
      as [[[data2 count2] w2] t2].
    cbn [fst snd] in *. destruct IH as (Hd2 & Hp2 & Hn2 & Hi2 & Hs2 & Ht2).
    rewrite notices_app, deliveredTo_app, storeCalls_app, storeWrites_app,
      textCalls_app, !length_app, Hs1, Hs2, Ht1, Ht2.
    split; [exact Hd2|]. split; [now apply passFacts_app|].
    split; [|split; [|split; [reflexivity|]]].
    + apply Forall_app. split.
      * eapply Forall_impl; [exact Hn1|]. cbv beta. intros req Hr. exists u. split; [now left|exact Hr].
      * eapply Forall_impl; [exact Hn2|]. cbv beta. intros req (u' & Hin & Hr).
        exists u'. split; [now right|exact Hr].
    + apply Forall_app. split.
      * eapply Forall_impl; [exact Hi1|]. cbv beta. intros id Hr. exists u. split; [now left|exact Hr].
      * eapply Forall_impl; [exact Hi2|]. cbv beta. intros id (u' & Hin & Hr).
        exists u'. split; [now right|exact Hr].
    + cbn [List.filter]. destruct (notSender cfgClient u); reflexivity.
Qed.

(** The two log lines around the loop change none of the facts. *)
Lemma log_line_facts (b : bool) (e : Event) :
  match e with LogSending _ | LogSent _ => True | _ => False end ->
  let line := if b then [e] else [] in
  passFacts line /\ notices line = [] /\ deliveredTo line = []
  /\ storeCalls line = [] /\ storeWrites line = [].
Proof.
  intros He line. subst line.
  destruct b; destruct e; try contradiction; unfold passFacts; cbn;
    repeat split; auto.
Qed.

(** The outcome of a pass, for the facts that hold of every part of it. *)
Lemma dispatch_more
  {W : Type} `{Collaborators W}
  (cfgClient : config.ClientAPI) (w : W) :
  let query :=
    {| userapi.QueryOutdatedPolicyRequest.PolicyVersion :=
         config.Version (config.UserConsentOptions (config.Matrix cfgClient)) |} in
  let users :=
    userapi.QueryOutdatedPolicyResponse.OutdatedUsers
      (fst (fst (QueryOutdatedPolicy query w))) in
  let tr := trace (sendServerNoticeForConsent cfgClient) w in
  passFacts tr
  /\ Forall (fun req => exists u, In u users /\ noticeFor cfgClient u req) (notices tr)
  /\ Forall (fun id => exists u, In u users /\ id = fullUserID cfgClient u)
            (deliveredTo tr)
  /\ length (storeCalls tr) = S (length (storeWrites tr))
  /\ hd_error (storeCalls tr)
     = Some (CallQueryOutdatedPolicy query
               (fst (fst (QueryOutdatedPolicy query w)))
               (snd (fst (QueryOutdatedPolicy query w)))).
Proof.
  intros query users tr. subst users tr.
  destruct (QueryOutdatedPolicy query w) as [[res [e|]] w1] eqn:Hq; cbn [fst snd].
  - unfold sendServerNoticeForConsent. go_unfold. fold query. rewrite Hq.
    cbv beta iota zeta. unfold passFacts. cbn.
    repeat split; auto; solve [repeat constructor; discriminate].
  - rewrite (dispatch_run cfgClient w w1 res Hq).
    pose proof (noticeUsers_more cfgClient
                  (userapi.QueryOutdatedPolicyResponse.OutdatedUsers res)
                  ∅ 0 w1 (or_introl eq_refl)) as Hl.
    cbv zeta in Hl. destruct Hl as (_ & Hp & Hn & Hi & Hs & _).
    fold query.
    set (t := trace (noticeUsers cfgClient
                       (userapi.QueryOutdatedPolicyResponse.OutdatedUsers res)
                       (∅, 0)) w1) in *.
    set (announce := if 0 <? _ then [LogSending _] else []).
    set (report := if 0 <? _ then [LogSent _] else []).
    assert (Ha : passFacts announce /\ notices announce = []
                 /\ deliveredTo announce = [] /\ storeCalls announce = []
                 /\ storeWrites announce = []) by (apply log_line_facts; exact I).
    assert (Hr : passFacts report /\ notices report = []
                 /\ deliveredTo report = [] /\ storeCalls report = []
                 /\ storeWrites report = []) by (apply log_line_facts; exact I).
    destruct Ha as (Ha1 & Ha2 & Ha3 & Ha4 & Ha5).
    destruct Hr as (Hr1 & Hr2 & Hr3 & Hr4 & Hr5).
    rewrite !notices_app, !deliveredTo_app, !storeCalls_app, !storeWrites_app.
    rewrite Ha2, Ha3, Ha4, Ha5, Hr2, Hr3, Hr4, Hr5, !app_nil_r.
    cbn [notices deliveredTo storeCalls storeWrites List.filter isStoreCall
         app length hd_error].
    split; [|repeat split; auto].
    apply (passFacts_app [_]); [unfold passFacts; cbn; repeat split; auto|].
    auto using passFacts_app.
Qed.

Lemma append_inv_tail (a b t : string) : a +:+ t = b +:+ t -> a = b.
Proof.
  revert b. induction a as [|c a IH]; intros [|c' b] E.
  - reflexivity.
  - apply (f_equal String.length) in E. rewrite !strlen_app in E.
    cbn [String.length] in E. lia.
  - apply (f_equal String.length) in E. rewrite !strlen_app in E.
    cbn [String.length] in E. lia.
  - cbn [String.append] in E. injection E as -> E. f_equal. now apply IH.
Qed.

Lemma fullUserID_inj (cfgClient : config.ClientAPI) (u u' : string) :
  fullUserID cfgClient u = fullUserID cfgClient u' -> u = u'.
Proof.
  unfold fullUserID. intros E.
  change ("@" +:+ ?x) with (String "@"%char x) in E. injection E as E.
  now apply append_inv_tail in E.
Qed.

Lemma fullUserID_longer (cfgClient : config.ClientAPI) (u : string) :
  fullUserID cfgClient u <> u.
Proof.
  intros E. apply (f_equal String.length) in E.
  unfold fullUserID in E. rewrite !strlen_app in E. cbn in E. lia.
Qed.

(** ** The dispatcher, pass by pass *)

(** X12. The notice sender is never sent a notice: every notice of a pass,
    delivered or not, goes to the full ID @local:server of a listed user
    other than the sender, with the configured message type. *)
Theorem notice_sender_is_never_noticed
  {W : Type} `{Collaborators W}
  (cfgClient : config.ClientAPI) (w : W) :
  let query :=
    {| userapi.QueryOutdatedPolicyRequest.PolicyVersion :=
         config.Version (config.UserConsentOptions (config.Matrix cfgClient)) |} in
  let users :=
    userapi.QueryOutdatedPolicyResponse.OutdatedUsers
      (fst (fst (QueryOutdatedPolicy query w))) in
  let sender := config.LocalPart (config.ServerNotices (config.Matrix cfgClient)) in
  Forall (fun req : sendServerNoticeRequest.t =>
            sendServerNoticeRequest.UserID req <> fullUserID cfgClient sender
            /\ sendServerNoticeRequest.MsgType (sendServerNoticeRequest.Content req)
               = config.MsgType
                   (config.ServerNoticeContent
                      (config.UserConsentOptions (config.Matrix cfgClient)))
            /\ exists u : string,
                 In u users /\ u <> sender
                 /\ sendServerNoticeRequest.UserID req = fullUserID cfgClient u)
         (notices (trace (sendServerNoticeForConsent cfgClient) w)).
Proof.
  intros query users sender.
  destruct (dispatch_more cfgClient w) as (_ & Hn & _).
  eapply Forall_impl; [exact Hn|]. cbv beta.
  intros req (u & Hin & Hns & Hid & Hty).
  assert (Hu : u <> sender).
  { unfold notSender in Hns. apply negb_true_iff, String.eqb_neq in Hns. exact Hns. }
  split; [|split; [exact Hty|]].
  - rewrite Hid. intros E. apply fullUserID_inj in E. contradiction.
  - exists u. auto.
Qed.

(** X13. Every store update of a pass is made under the user ID of the
    notice just delivered: the updates, in order, carry in [LocalPart] the
    IDs the notices were delivered to, each the full ID @local:server of a
    listed user and never the local part the listing returned. *)
Theorem dispatch_updates_carry_the_full_user_id
  {W : Type} `{Collaborators W}
  (cfgClient : config.ClientAPI) (w : W) :
  let query :=
    {| userapi.QueryOutdatedPolicyRequest.PolicyVersion :=
         config.Version (config.UserConsentOptions (config.Matrix cfgClient)) |} in
  let users :=
    userapi.QueryOutdatedPolicyResponse.OutdatedUsers
      (fst (fst (QueryOutdatedPolicy query w))) in
  let tr := trace (sendServerNoticeForConsent cfgClient) w in
  map userapi.UpdatePolicyVersionRequest.LocalPart (storeWrites tr) = deliveredTo tr
  /\ Forall (fun id : string =>
               exists u : string,
                 In u users /\ id = fullUserID cfgClient u /\ id <> u)
            (map userapi.UpdatePolicyVersionRequest.LocalPart (storeWrites tr)).
Proof.
  intros query users tr.
  destruct (dispatch_more cfgClient w) as ((Hw & _) & _ & Hi & _).
  fold tr in Hw, Hi. split; [exact Hw|]. rewrite Hw.
  eapply Forall_impl; [exact Hi|]. cbv beta.
  intros id (u & Hin & ->). exists u. repeat split; auto.
  apply fullUserID_longer.
Qed.

(** X14. No failure of a pass goes unlogged and nothing else is logged as an
    error: the errors logged are, in order, the errors the collaborators
    returned. Building the consent URI never fails, and its error message is
    never logged. *)
Theorem dispatch_logs_every_failure
  {W : Type} `{Collaborators W}
  (cfgClient : config.ClientAPI) (w : W) :
  let tr := trace (sendServerNoticeForConsent cfgClient) w in
  map fst (loggedErrors tr) = failedCalls tr
  /\ Forall (fun l : error * string => snd l <> "unable to construct consentURI")
            (loggedErrors tr)
  /\ forall userID : string, snd (buildConsentURI cfgClient userID) = None.
Proof.
  intros tr.
  destruct (dispatch_more cfgClient w) as ((_ & Hl & Hm & _) & _).
  repeat split; assumption || reflexivity.
Qed.

(** X15. A pass touches nothing of the request handler: it executes no HTML
    template, writes no response body and checks no signature; its store
    calls are the listing, first, and the updates, so that it never reads
    the version of a single user and lists only once. *)
Theorem dispatch_store_calls_are_listing_then_updates
  {W : Type} `{Collaborators W}
  (cfgClient : config.ClientAPI) (w : W) :
  let query :=
    {| userapi.QueryOutdatedPolicyRequest.PolicyVersion :=
         config.Version (config.UserConsentOptions (config.Matrix cfgClient)) |} in
  let tr := trace (sendServerNoticeForConsent cfgClient) w in
  templateCalls tr = [] /\ bodies tr = [] /\ validHMACCalls tr = []
  /\ length (storeCalls tr) = S (length (storeWrites tr))
  /\ hd_error (storeCalls tr)
     = Some (CallQueryOutdatedPolicy query
               (fst (fst (QueryOutdatedPolicy query w)))
               (snd (fst (QueryOutdatedPolicy query w)))).
Proof.
  intros query tr.
  destruct (dispatch_more cfgClient w) as ((_ & _ & _ & Ht & Hb & Hv) & _ & _ & Hs & Hh).
  repeat split; assumption.
Qed.

(** X16. After a listing that succeeded the notice template is executed once
    for every listed user but the sender, in order, under the name
    "serverNoticeTemplate" and on a map that holds the consent URL of that
    user and nothing else: nothing of an earlier user is left in the map. *)
Theorem notice_template_sees_only_the_current_url
  {W : Type} `{Collaborators W}
  (cfgClient : config.ClientAPI) (w : W) :
  let query :=
    {| userapi.QueryOutdatedPolicyRequest.PolicyVersion :=
         config.Version (config.UserConsentOptions (config.Matrix cfgClient)) |} in
  textCalls (trace (sendServerNoticeForConsent cfgClient) w)
  = match QueryOutdatedPolicy query w with
    | (_, Some _, _) => []
    | (res, None, _) =>
        map (fun u => ("serverNoticeTemplate",
                       {["ConsentURL" := consentURLFor cfgClient u]}))
            (List.filter (notSender cfgClient)
               (userapi.QueryOutdatedPolicyResponse.OutdatedUsers res))
    end.
Proof.
  intros query.
  destruct (QueryOutdatedPolicy query w) as [[res [e|]] w1] eqn:Hq.
  - unfold sendServerNoticeForConsent. go_unfold. fold query. rewrite Hq.
    reflexivity.
  - rewrite (dispatch_run cfgClient w w1 res Hq).
    pose proof (noticeUsers_more cfgClient
                  (userapi.QueryOutdatedPolicyResponse.OutdatedUsers res)
                  ∅ 0 w1 (or_introl eq_refl)) as Hl.
    cbv zeta in Hl. destruct Hl as (_ & _ & _ & _ & _ & Ht).
    rewrite !textCalls_app, Ht. cbn [textCalls app].
    repeat match goal with
           | |- context [if ?b then _ else _] => destruct b
           end; cbn [textCalls app]; now rewrite ?app_nil_r.
Qed.

Lemma noticeUsers_only_sender
  {W : Type} `{Collaborators W}
  (cfgClient : config.ClientAPI) (users : list string)
  (acc : gmap string string * Z) (w : W) :
  Forall (fun u => u = config.LocalPart (config.ServerNotices (config.Matrix cfgClient)))
         users ->
  noticeUsers cfgClient users acc w = (acc, w, []).
Proof.
  induction 1 as [|u users Hu _ IH]; [reflexivity|].
  rewrite noticeUsers_cons. unfold noticeUser at 1. destruct acc as [data count].
  rewrite Hu, String.eqb_refl. unfold ret. rewrite IH. reflexivity.
Qed.

(** X17. When the listing succeeds and returns no user, or no user but the
    notice sender, the pass ends there: the world is the one the listing
    left, nothing is sent, updated or reported; yet a non-empty list is
    announced with its length, the sender counted. *)
Theorem dispatch_with_nobody_to_notice
  {W : Type} `{Collaborators W}
  (cfgClient : config.ClientAPI) (w w1 : W)
  (res : userapi.QueryOutdatedPolicyResponse.t) :
  let query :=
    {| userapi.QueryOutdatedPolicyRequest.PolicyVersion :=
         config.Version (config.UserConsentOptions (config.Matrix cfgClient)) |} in
  let users := userapi.QueryOutdatedPolicyResponse.OutdatedUsers res in
  QueryOutdatedPolicy query w = (res, None, w1) ->
  Forall (fun u => u = config.LocalPart (config.ServerNotices (config.Matrix cfgClient)))
         users ->
  run (sendServerNoticeForConsent cfgClient) w
  = (tt, w1,
     CallQueryOutdatedPolicy query res None
       :: match users with
          | [] => []
          | _ :: _ => [LogSending (Z.of_nat (length users))]
          end).
Proof.
  intros query users Hq Hall.
  unfold sendServerNoticeForConsent. go_unfold. fold query. rewrite Hq.
  cbv beta iota zeta. fold users.
  destruct users as [|u rest] eqn:Hus.
  - reflexivity.
  - rewrite <- Hus in *. 
    assert (Hpos : (0 <? Z.of_nat (length users)) = true)
      by (apply Z.ltb_lt; rewrite Hus; cbn [length]; lia).
    rewrite Hpos. rewrite (noticeUsers_only_sender cfgClient users (∅, 0) w1 Hall).
    reflexivity.
Qed.

(** *** A pass in which nothing fails *)

Lemma delivered_deliveredTo (tr : list Event) :
  delivered tr = Z.of_nat (length (deliveredTo tr)).
Proof.
  induction tr as [|e tr IH]; [reflexivity|].
  destruct e as [| | | | | |req [err|]| | | |];
    cbn [delivered deliveredTo length]; rewrite ?IH; lia.
Qed.

(** An iteration in which no collaborator failed went through: nothing was
    logged as an error and, unless the user is the sender, the notice was
    delivered and the update made. *)
Lemma noticeUser_unfailing
  {W : Type} `{Collaborators W}
  (cfgClient : config.ClientAPI) (data : gmap string string) (count : Z)
  (userID : string) (w : W) :
  let tr := trace (noticeUser cfgClient (data, count) userID) w in
  failedCalls tr = [] ->
  loggedErrors tr = []
  /\ recorded tr = delivered tr
  /\ deliveredTo tr
     = (if notSender cfgClient userID then [fullUserID cfgClient userID] else []).
Proof.
  unfold noticeUser, notSender, fullUserID, buildConsentURI.
  go_unfold. cbv beta iota zeta.
  destruct (String.eqb userID _); cbn [negb fst snd]; [cbn; auto|].
  destruct (TextTemplates_ExecuteTemplate _ _ w) as [[out [e|]] w1];
    [cbn; discriminate|].
  destruct (sendServerNotice _ w1) as [[e|] w2]; [cbn; discriminate|].
  destruct (PerformUpdatePolicyVersion _ w2) as [[e|] w3];
    [cbn; discriminate|].
  cbn [fst snd failedCalls loggedErrors recorded delivered deliveredTo app
       sendServerNoticeRequest.UserID].
  auto.
Qed.

Lemma noticeUsers_unfailing
  {W : Type} `{Collaborators W}
  (cfgClient : config.ClientAPI) (users : list string) :
  forall (data : gmap string string) (count : Z) (w : W),
  let tr := trace (noticeUsers cfgClient users (data, count)) w in
  failedCalls tr = [] ->
  loggedErrors tr = []
  /\ recorded tr = delivered tr
  /\ deliveredTo tr
     = map (fullUserID cfgClient) (List.filter (notSender cfgClient) users).
Proof.
  induction users as [|u users IH]; intros data count w.
  - cbn. auto.
  - unfold trace. rewrite noticeUsers_cons.
    pose proof (noticeUser_unfailing cfgClient data count u w) as Hu.
    unfold trace in Hu.
    destruct (noticeUser cfgClient (data, count) u w) as [[[data1 count1] w1] t1].
    specialize (IH data1 count1 w1). unfold trace in IH.
    destruct (noticeUsers cfgClient users (data1, count1) w1)
      as [[[data2 count2] w2] t2].
    cbn [fst snd] in *. intros Hf.
    rewrite failedCalls_app in Hf. apply app_eq_nil in Hf. destruct Hf as [Hf1 Hf2].
    destruct (Hu Hf1) as (Hl1 & Hr1 & Hd1).
    destruct (IH Hf2) as (Hl2 & Hr2 & Hd2).
    rewrite loggedErrors_app, recorded_app, delivered_app, deliveredTo_app,
      Hl1, Hl2, Hr1, Hr2, Hd1, Hd2.
    cbn [List.filter]. destruct (notSender cfgClient u); auto.
Qed.

(** X18. A pass in which no collaborator call fails (the listing, and every
    template, delivery and update the pass makes) notices every listed user
    but the sender, in order, and requests the update for each; nothing is
    logged as an error, and the number of these users is what the pass
    reports when it is not zero. *)
Theorem dispatch_without_failure_notices_everyone
  {W : Type} `{Collaborators W}
  (cfgClient : config.ClientAPI) (w : W) :
  let query :=
    {| userapi.QueryOutdatedPolicyRequest.PolicyVersion :=
         config.Version (config.UserConsentOptions (config.Matrix cfgClient)) |} in
  let users :=
    userapi.QueryOutdatedPolicyResponse.OutdatedUsers
      (fst (fst (QueryOutdatedPolicy query w))) in
  let tr := trace (sendServerNoticeForConsent cfgClient) w in
  failedCalls tr = [] ->
  Z.of_nat (length users) < 2 ^ 63 ->
  let notified := map (fullUserID cfgClient) (List.filter (notSender cfgClient) users) in
  let n := Z.of_nat (length notified) in
  deliveredTo tr = notified
  /\ map userapi.UpdatePolicyVersionRequest.LocalPart (storeWrites tr) = notified
  /\ recorded tr = n
  /\ loggedErrors tr = []
  /\ reported tr = (if 0 <? n then [n] else []).
Proof.
  intros query users tr. subst users tr.
  destruct (QueryOutdatedPolicy query w) as [[res [e|]] w1] eqn:Hq; cbn [fst snd].
  { intros Hf. exfalso. revert Hf.
    unfold sendServerNoticeForConsent. go_unfold. fold query. rewrite Hq.
    cbn. discriminate. }
  set (users := userapi.QueryOutdatedPolicyResponse.OutdatedUsers res).
  rewrite (dispatch_run cfgClient w w1 res Hq). fold users.
  set (t := trace (noticeUsers cfgClient users (∅, 0)) w1).
  set (c := snd (result (noticeUsers cfgClient users (∅, 0)) w1)).
  set (announce := if 0 <? Z.of_nat (length users)
                   then [LogSending (Z.of_nat (length users))] else []).
  set (report := if 0 <? c then [LogSent c] else []).
  assert (Ha : failedCalls announce = [] /\ deliveredTo announce = []
               /\ storeWrites announce = [] /\ recorded announce = 0
               /\ loggedErrors announce = [] /\ reported announce = [])
    by (subst announce; destruct (0 <? Z.of_nat (length users)); repeat split; reflexivity).
  assert (Hr : failedCalls report = [] /\ deliveredTo report = []
               /\ storeWrites report = [] /\ recorded report = 0
               /\ loggedErrors report = []
               /\ reported report = if 0 <? c then [c] else [])
    by (subst report; destruct (0 <? c); repeat split; reflexivity).
  destruct Ha as (Ha1 & Ha2 & Ha3 & Ha4 & Ha5 & Ha6).
  destruct Hr as (Hr1 & Hr2 & Hr3 & Hr4 & Hr5 & Hr6).
  rewrite !failedCalls_app, !deliveredTo_app, !storeWrites_app, !recorded_app,
    !loggedErrors_app, !reported_app, !map_app.
  rewrite Ha1, Ha2, Ha3, Ha4, Ha5, Ha6, Hr1, Hr2, Hr3, Hr4, Hr5, Hr6.
  cbn [failedCalls deliveredTo storeWrites recorded loggedErrors reported app map].
  rewrite !app_nil_r. intros Hf Hlen.
  set (notified := map (fullUserID cfgClient)
                       (List.filter (notSender cfgClient) users)).
  set (n := Z.of_nat (length notified)).
  destruct (noticeUsers_unfailing cfgClient users ∅ 0 w1 Hf) as (Hl & Hrec & Hd).
  fold t in Hl, Hrec, Hd.
  pose proof (noticeUsers_spec cfgClient users ∅ 0 w1) as Hs.
  cbv zeta in Hs. destruct Hs as (_ & Hc & _ & _ & _ & Hp & _).
  specialize (Hc ltac:(lia) Hlen). rewrite Z.add_0_l in Hc.
  fold t c in Hc, Hp.
  pose proof (noticeUsers_more cfgClient users ∅ 0 w1 (or_introl eq_refl)) as Hm.
  cbv zeta in Hm. destruct Hm as (_ & (Hwr & _) & _). fold t in Hwr.
  assert (Hn : delivered t = n).
  { rewrite delivered_deliveredTo, Hd. reflexivity. }
  rewrite Hwr, Hd, Hl, Hrec, Hp, Hc, Hn. fold notified.
  cbn [app].
  repeat split; try reflexivity. lia.
Qed.

(** ** The link, user by user *)

Lemma append_inv_head (a x y : string) : a +:+ x = a +:+ y -> x = y.
Proof.
  induction a as [|c a IH]; cbn [String.append]; intros E; [exact E|].
  injection E as E. now apply IH.
Qed.

Lemma append_same_length (a b x y : string) :
  String.length a = String.length b -> a +:+ x = b +:+ y -> a = b.
Proof.
  revert b. induction a as [|c a IH]; intros [|c' b] Hl E;
    cbn [String.length] in Hl; try discriminate Hl; [reflexivity|].
  cbn [String.append] in E. injection E as -> E. f_equal.
  apply IH; [lia | exact E].
Qed.

(** X19. Under one configuration two user IDs never get the same link, and
    the link is as long as its parts with 32 bytes for the signature: the
    user ID and the version are put in as they are. *)
Theorem consent_links_differ_between_users
  (cfgClient : config.ClientAPI) (userID1 userID2 : string) :
  let consentOpts := config.UserConsentOptions (config.Matrix cfgClient) in
  String.length (fst (buildConsentURI cfgClient userID1))
  = (String.length (config.BaseURL consentOpts) + 26
     + String.length userID1 + 3 + 32 + 3
     + String.length (config.Version consentOpts))%nat
  /\ (fst (buildConsentURI cfgClient userID1) = fst (buildConsentURI cfgClient userID2)
      <-> userID1 = userID2).
Proof.
  intros consentOpts.
  assert (Hlen : forall u,
    String.length (fst (buildConsentURI cfgClient u))
    = (String.length (config.BaseURL consentOpts) + 26
       + String.length u + 3 + 32 + 3
       + String.length (config.Version consentOpts))%nat).
  { intros u. unfold buildConsentURI, userMAC. cbn [fst]. fold consentOpts.
    rewrite !strlen_app, strlen_to_string, HMAC_Sum_length.
    cbn [String.length]. lia. }
  split; [apply Hlen|]. split; [|now intros ->].
  intros E.
  assert (Hl : String.length userID1 = String.length userID2).
  { pose proof (Hlen userID1) as H1. pose proof (Hlen userID2) as H2.
    rewrite E in H1. lia. }
  unfold buildConsentURI in E. cbn [fst] in E.
  apply append_inv_head, append_inv_head in E.
  now apply (append_same_length _ _ _ _ Hl) in E.
Qed.

(** ** The further properties at concrete inputs *)

Lemma result_run {W A : Type} (m : M W A) (w : W) :
  result m w = fst (fst (run m w)).
Proof. reflexivity. Qed.

Lemma world_run {W A : Type} (m : M W A) (w : W) :
  world m w = snd (fst (run m w)).
Proof. reflexivity. Qed.

Lemma trace_run {W A : Type} (m : M W A) (w : W) :
  trace m w = snd (run m w).
Proof. reflexivity. Qed.

Lemma validHMAC_accepts_the_hex_digest_in_any_case_witness :
  lowerHex Faulty.bobSignatureCapitals = Sample.bobSignature
  /\ validHMAC "@bob:example.org" Faulty.bobSignatureCapitals "s3cr3t" = (true, None)
  /\ String.length Faulty.bobSignatureCapitals = 64%nat.
Proof.
  destruct (validHMAC_accepts_the_hex_digest_in_any_case
              "@bob:example.org" Faulty.bobSignatureCapitals "s3cr3t")
    as [Hiff Himp].
  assert (Hl : lowerHex Faulty.bobSignatureCapitals
               = Hex.EncodeToString
                   (HMAC.Sum (Bytes.of_string "s3cr3t")
                             (Bytes.of_string "@bob:example.org")))
    by (vm_compute; reflexivity).
  pose proof (proj2 Hiff Hl) as Ht. destruct (Himp Ht) as [Hn H64].
  split; [vm_compute; reflexivity|]. split; [|exact H64].
  destruct (validHMAC "@bob:example.org" Faulty.bobSignatureCapitals "s3cr3t")
    as [ok err]. cbn [fst snd] in Ht, Hn. now subst.
Defined.

Lemma validHMAC_rejects_malformed_signatures_witness :
  Nat.odd (String.length "abc") = true
  /\ fst (validHMAC "@bob:example.org" "abc" "s3cr3t") = false
  /\ snd (validHMAC "@bob:example.org" "abc" "s3cr3t") <> None.
Proof.
  destruct (validHMAC_rejects_malformed_signatures "@bob:example.org" "s3cr3t")
    as (_ & Hodd & _).
  split; [reflexivity|]. apply (Hodd "abc"). reflexivity.
Defined.

Lemma other_methods_do_nothing_witness :
  let req := linkRequest "PUT" "@bob:example.org" "2" Sample.bobSignature in
  let w := Mem.sound Sample.bobStore in
  Method req <> "GET" /\ Method req <> "POST"
  /\ run (consent req Sample.cfg) w = (Some {| Code := 200 |}, w, []).
Proof.
  intros req w.
  assert (Hg : Method req <> "GET") by discriminate.
  assert (Hp : Method req <> "POST") by discriminate.
  split; [exact Hg|]. split; [exact Hp|].
  exact (other_methods_do_nothing req Sample.cfg w Hg Hp).
Defined.

Lemma get_unparsable_user_is_internal_error_witness :
  let req := linkRequest "GET" "bob" "2" "zz" in
  let w := Mem.sound Sample.bobStore in
  result (consent req Sample.cfg) w = Some InternalServerError
  /\ storeCalls (trace (consent req Sample.cfg) w) = []
  /\ renders (trace (consent req Sample.cfg) w) = [].
Proof.
  intros req w.
  pose proof (get_unparsable_user_is_internal_error
                req Sample.cfg w "" "" (errorString "invalid ID: missing sigil")
                eq_refl ltac:(discriminate) ltac:(discriminate) ltac:(discriminate)
                eq_refl) as Hrun.
  rewrite result_run, !trace_run, Hrun.
  repeat split; reflexivity.
Defined.

Lemma get_store_failure_is_internal_error_witness :
  let req := linkRequest "GET" "@bob:example.org" "2" "zz" in
  let w := Faulty.readFails Sample.bobStore in
  result (consent req Sample.cfg) w = Some InternalServerError
  /\ length (storeCalls (trace (consent req Sample.cfg) w)) = 1%nat
  /\ renders (trace (consent req Sample.cfg) w) = [].
Proof.
  intros req w.
  assert (Hq : QueryPolicyVersion
                 {| userapi.QueryPolicyVersionRequest.LocalPart := "bob" |} w
               = ({| userapi.QueryPolicyVersionResponse.PolicyVersion := "" |},
                  Some (errorString "query"), w)) by reflexivity.
  pose proof (get_store_failure_is_internal_error
                req Sample.cfg w w "bob" "example.org" _ _
                eq_refl ltac:(discriminate) ltac:(discriminate) ltac:(discriminate)
                eq_refl Hq) as Hrun.
  rewrite result_run, !trace_run, Hrun.
  repeat split; reflexivity.
Defined.

Lemma get_is_read_only_witness :
  let req := linkRequest "GET" "@bob:example.org" "2" "zz" in
  let w := Faulty.renderFails Sample.bobStore in
  Method req = "GET"
  /\ storeWrites (trace (consent req Sample.cfg) w) = []
  /\ bodies (trace (consent req Sample.cfg) w) = [].
Proof.
  intros req w.
  destruct (get_is_read_only req Sample.cfg w eq_refl) as (Hw & Hb & _).
  split; [reflexivity|]. split; assumption.
Defined.

Lemma post_unparsable_user_is_internal_error_witness :
  let req := linkRequest "POST" "" "" "" in
  let w := Mem.sound Sample.bobStore in
  Method req = "POST" /\ FormValue req "u" = ""
  /\ exists e : error,
       run (consent req Sample.cfg) w
       = (Some InternalServerError, w, [LogError e None "unable to split username"]).
Proof.
  intros req w.
  destruct (post_unparsable_user_is_internal_error req Sample.cfg w eq_refl)
    as [_ Hempty].
  split; [reflexivity|]. split; [reflexivity|]. exact (Hempty eq_refl).
Defined.

Lemma post_accepted_write_is_kept_witness :
  let req := linkRequest "POST" "@bob:example.org" "2" Sample.bobSignature in
  let w := Faulty.renderFails Sample.bobStore in
  validHMAC "@bob:example.org" Sample.bobSignature "s3cr3t" = (true, None)
  /\ result (consent req Sample.cfg) w = Some InternalServerError
  /\ Mem.acceptedVersion (world (consent req Sample.cfg) w) "bob" = "2".
Proof.
  intros req w.
  assert (Hv : validHMAC "@bob:example.org" Sample.bobSignature "s3cr3t"
               = (true, None)) by (vm_compute; reflexivity).
  assert (Hu : PerformUpdatePolicyVersion
                 {| userapi.UpdatePolicyVersionRequest.PolicyVersion := "2";
                    userapi.UpdatePolicyVersionRequest.LocalPart := "bob";
                    userapi.UpdatePolicyVersionRequest.ServerNoticeUpdate := false |}
                 w
               = (None, Mem.setStore (<["bob" := ("2", false)]> Sample.bobStore) w))
    by reflexivity.
  pose proof (post_accepted_write_is_kept
                req Sample.cfg w _ "bob" "example.org" eq_refl eq_refl Hv Hu) as Hrun.
  split; [exact Hv|].
  rewrite result_run, world_run, Hrun.
  split; [reflexivity | vm_compute; reflexivity].
Defined.

Lemma post_write_failure_is_reported_witness :
  let req := linkRequest "POST" "@bob:example.org" "2" Sample.bobSignature in
  let w := Sample.updatesFail Sample.bobStore in
  validHMAC "@bob:example.org" Sample.bobSignature "s3cr3t" = (true, None)
  /\ bodies (trace (consent req Sample.cfg) w) = ["unable to update database"]
  /\ Mem.acceptedVersion (world (consent req Sample.cfg) w) "bob" = "1".
Proof.
  intros req w.
  assert (Hv : validHMAC "@bob:example.org" Sample.bobSignature "s3cr3t"
               = (true, None)) by (vm_compute; reflexivity).
  assert (Hu : PerformUpdatePolicyVersion
                 {| userapi.UpdatePolicyVersionRequest.PolicyVersion := "2";
                    userapi.UpdatePolicyVersionRequest.LocalPart := "bob";
                    userapi.UpdatePolicyVersionRequest.ServerNoticeUpdate := false |}
                 w
               = (Some (errorString "update"), w)) by reflexivity.
  pose proof (post_write_failure_is_reported
                req Sample.cfg w w "bob" "example.org" _ eq_refl eq_refl Hv Hu)
    as Hrun.
  split; [exact Hv|].
  rewrite trace_run, world_run, Hrun.
  split; [reflexivity | vm_compute; reflexivity].
Defined.

Lemma dispatch_with_nobody_to_notice_witness :
  let w := Mem.sound Faulty.senderOnly in
  Mem.outdated "2" w = ["_server"]
  /\ run (sendServerNoticeForConsent Sample.cfg) w
     = (tt, w,
        [CallQueryOutdatedPolicy
           {| userapi.QueryOutdatedPolicyRequest.PolicyVersion := "2" |}
           {| userapi.QueryOutdatedPolicyResponse.OutdatedUsers := ["_server"] |}
           None;
         LogSending 1]).
Proof.
  intros w.
  assert (Ho : Mem.outdated "2" w = ["_server"]) by (vm_compute; reflexivity).
  assert (Hq : QueryOutdatedPolicy
                 {| userapi.QueryOutdatedPolicyRequest.PolicyVersion := "2" |} w
               = ({| userapi.QueryOutdatedPolicyResponse.OutdatedUsers := ["_server"] |},
                  None, w)).
  { cbn [QueryOutdatedPolicy Mem.collaborators Mem.listFails w Mem.sound
         userapi.QueryOutdatedPolicyRequest.PolicyVersion].
    rewrite Ho. reflexivity. }
  split; [exact Ho|].
  apply (dispatch_with_nobody_to_notice Sample.cfg w w _ Hq).
  repeat constructor.
Defined.

Lemma dispatch_without_failure_notices_everyone_witness :
  let w := Sample.deliveryFails "@zzz:example.org" Sample.threeUsers in
  let tr := trace (sendServerNoticeForConsent Sample.cfg) w in
  failedCalls tr = []
  /\ deliveredTo tr = ["@u3:example.org"; "@u1:example.org"; "@u2:example.org"]
  /\ recorded tr = 3 /\ reported tr = [3] /\ loggedErrors tr = [].
Proof.
  intros w tr.
  assert (Hf : failedCalls tr = []) by (vm_compute; reflexivity).
  assert (Hlen : Z.of_nat (length (Mem.outdated "2" w)) < 2 ^ 63)
    by (vm_compute; reflexivity).
  destruct (dispatch_without_failure_notices_everyone Sample.cfg w Hf Hlen)
    as (Hd & _ & Hr & Hl & Hp).
  split; [exact Hf|]. fold tr in Hd, Hr, Hl, Hp.
  rewrite Hd, Hr, Hp, Hl. vm_compute. repeat split; reflexivity.
Defined.
